(** * WKF kata results scraper: [data_utils.py]

    A shallow embedding of the extraction module of the repository
    (category page parser, performance extractor, round URL collector and
    the two aggregators) together with the properties its specification
    states about it.

    Layout:
    - [py]   : the Python values and built-ins the module relies on
               (exceptions, [str] methods, list indexing and slicing,
               [float] on strings);
    - [bs4]  : the queryable HTML tree ([find_all], [.text], [tag[attr]]);
    - [pd]   : the two pandas entry points the aggregators call;
    - [data_utils] and [data_utils_copy] : the two copies of the module;
    - the theorems. *)

From Stdlib Require Import Ascii QArith Qreduction.
From stdpp Require Import base option list strings gmap pretty.

#[local] Set Warnings "-clear-no-such-hyp".

Local Open Scope nat_scope.

(** * Python values and built-ins *)
Module py.

(** Exceptions the module can let escape.  [IndexError], [ValueError] and
    [KeyError] come from the extraction code itself, [ConnectionError]
    stands for whatever [requests.get] raises, [ParserRejectedMarkup] for
    what [BeautifulSoup] raises on markup its parser rejects and [OSError]
    for what [open] raises. *)
Inductive exn :=
| IndexError
| ValueError
| KeyError
| ConnectionError
| ParserRejectedMarkup
| OSError.

Global Instance exn_eq_dec : EqDecision exn.
Proof. solve_decision. Defined.

(** A Python computation: it returns a value or raises. *)
Inductive result (A : Type) :=
| Ok (a : A)
| Raise (e : exn).
Global Arguments Ok {A} a.
Global Arguments Raise {A} e.

Global Instance result_ret : MRet result := fun A a => Ok a.
Global Instance result_bind : MBind result := fun A B f m =>
  match m with
  | Ok a => f a
  | Raise e => Raise e
  end.

(** [for x in xs: acc = body acc x], stopping at the first exception. *)
Fixpoint for_each {A St} (body : St -> A -> result St) (xs : list A)
    (acc : St) : result St :=
  match xs with
  | [] => Ok acc
  | x :: xs' => acc' ← body acc x; for_each body xs' acc'
  end.

(** [[f(x) for x in xs]], stopping at the first exception. *)
Fixpoint comprehension {A B} (f : A -> result B) (xs : list A)
  : result (list B) :=
  match xs with
  | [] => Ok []
  | x :: xs' => y ← f x; ys ← comprehension f xs'; Ok (y :: ys)
  end.

(** ** Lists *)

(** [xs[i]] for [i >= 0]. *)
Definition getitem {A} (xs : list A) (i : nat) : result A :=
  match xs !! i with
  | Some x => Ok x
  | None => Raise IndexError
  end.

(** [xs[-1]]. *)
Definition getitem_last {A} (xs : list A) : result A :=
  match last xs with
  | Some x => Ok x
  | None => Raise IndexError
  end.

(** [xs[i:j]] for [0 <= i], [0 <= j]; slices never raise. *)
Definition slice {A} (i j : nat) (xs : list A) : list A :=
  drop i (take j xs).

(** [xs[:-n]] for [n > 0]. *)
Definition slice_to_neg {A} (n : nat) (xs : list A) : list A :=
  take (length xs - n) xs.

(** [a, b = xs]. *)
Definition unpack2 {A} (xs : list A) : result (A * A) :=
  match xs with
  | [a; b] => Ok (a, b)
  | _ => Raise ValueError
  end.

(** ** Strings.  A [str] is a sequence of characters; characters are
    modelled by [ascii]. *)

Definition len (s : string) : nat := String.length s.

Fixpoint str_take (n : nat) (s : string) : string :=
  match n, s with
  | S n', String c s' => String c (str_take n' s')
  | _, _ => ""
  end.

Fixpoint str_drop (n : nat) (s : string) : string :=
  match n, s with
  | S n', String _ s' => str_drop n' s'
  | _, _ => s
  end.

(** [s[:-n]] for [n > 0]. *)
Definition str_slice_to_neg (n : nat) (s : string) : string :=
  str_take (len s - n) s.

(** [s.startswith(p)]. *)
Fixpoint startswith (p s : string) : bool :=
  match p, s with
  | "", _ => true
  | String a p', String b s' => bool_decide (a = b) && startswith p' s'
  | String _ _, "" => false
  end.

(** [s.find(sub)]: lowest index at which [sub] occurs. *)
Fixpoint find (sub s : string) : option nat :=
  if startswith sub s then Some 0
  else match s with
       | "" => None
       | String _ s' => S <$> find sub s'
       end.

(** [s.rfind(sub)]: highest index at which [sub] occurs. *)
Fixpoint rfind (sub s : string) : option nat :=
  match s with
  | "" => if startswith sub s then Some 0 else None
  | String _ s' =>
      match rfind sub s' with
      | Some i => Some (S i)
      | None => if startswith sub s then Some 0 else None
      end
  end.

(** [sub in s]. *)
Definition contains (sub s : string) : bool :=
  bool_decide (is_Some (find sub s)).

(** [s.rsplit(sep, 1)] for a non-empty [sep]: cut at the last occurrence
    of [sep], or return [s] alone when there is none. *)
Definition rsplit1 (sep s : string) : list string :=
  match rfind sep s with
  | Some i => [str_take i s; str_drop (i + len sep) s]
  | None => [s]
  end.

(** [s.split(sep)] for a one-character [sep]. *)
Fixpoint split (sep : ascii) (s : string) : list string :=
  match s with
  | "" => [""]
  | String c s' =>
      if bool_decide (c = sep) then "" :: split sep s'
      else match split sep s' with
           | w :: ws => String c w :: ws
           | [] => [String c ""]
           end
  end.

(** [s.replace(old, new)] for one-character [old] and [new]. *)
Fixpoint replace (old new : ascii) (s : string) : string :=
  match s with
  | "" => ""
  | String c s' =>
      String (if bool_decide (c = old) then new else c) (replace old new s')
  end.

(** [str(n)] for a non-negative integer. *)
Definition str (n : nat) : string := pretty n.

(** [s.splitlines()]: cut at line boundaries, no empty last line. *)
Definition is_linebreak (c : ascii) : bool :=
  match c with
  | "010" | "011" | "012" | "013" | "028" | "029" | "030" | "133" => true
  | _ => false
  end%char.

Fixpoint splitlines_go (cur : string) (s : string) : list string :=
  match s with
  | "" => if bool_decide (cur = "") then [] else [String.rev cur]
  | String "013" (String "010" s') => String.rev cur :: splitlines_go "" s'
  | String c s' =>
      if is_linebreak c then String.rev cur :: splitlines_go "" s'
      else splitlines_go (String c cur) s'
  end.
Definition splitlines (s : string) : list string := splitlines_go "" s.

(** ** [float(s)] on a string.

    Characters are read as the code points 0 to 255.  The accepted syntax
    is the one of the language reference: surrounding white space, an
    optional sign, then [inf], [infinity], [nan] (any case) or a decimal
    number with an optional exponent, where digits may be grouped by
    single underscores.  The white space removed is the ASCII one and,
    beyond ASCII, the code points that are Unicode white space (133 and
    160).  The value is the binary64 number nearest to the decimal number
    read, ties to even, kept as a rational; a number too large becomes an
    infinity and a negative number that rounds to zero the negative
    zero. *)
Inductive pyfloat :=
| Finite (q : Q)
| NegZero
| Inf (negative : bool)
| NaN.

Definition is_digit (c : ascii) : option nat := Ascii.is_nat c.
Definition is_space (c : ascii) : bool :=
  match c with
  | "009" | "010" | "011" | "012" | "013" | " " | "133" | "160" => true
  | _ => false
  end%char.

Fixpoint lstrip (s : string) : string :=
  match s with
  | "" => ""
  | String c s' => if is_space c then lstrip s' else s
  end.

Fixpoint rstrip (s : string) : string :=
  match s with
  | "" => ""
  | String c s' =>
      match rstrip s' with
      | "" => if is_space c then "" else String c ""
      | r => String c r
      end
  end.

Definition strip (s : string) : string := rstrip (lstrip s).

Definition lower_char (c : ascii) : ascii :=
  let n := nat_of_ascii c in
  if (65 <=? n) && (n <=? 90) then ascii_of_nat (n + 32) else c.

Fixpoint lower (s : string) : string :=
  match s with
  | "" => ""
  | String c s' => String (lower_char c) (lower s')
  end.

(** [(["_"] digit)*]: the digits read and what is left. *)
Fixpoint digits_tail (s : string) : list nat * string :=
  match s with
  | String c s' =>
      match is_digit c with
      | Some d => let '(ds, r) := digits_tail s' in (d :: ds, r)
      | None =>
          if bool_decide (c = "_"%char) then
            match s' with
            | String c' s'' =>
                match is_digit c' with
                | Some d => let '(ds, r) := digits_tail s'' in (d :: ds, r)
                | None => ([], s)
                end
            | "" => ([], s)
            end
          else ([], s)
      end
  | "" => ([], s)
  end.

(** [digitpart ::= digit (["_"] digit)*]. *)
Definition digitpart (s : string) : option (list nat * string) :=
  match s with
  | String c s' =>
      match is_digit c with
      | Some d => let '(ds, r) := digits_tail s' in Some (d :: ds, r)
      | None => None
      end
  | "" => None
  end.

(** [number ::= [digitpart] "." digitpart | digitpart ["."]]: the digits
    before the point, the digits after it, and what is left. *)
Definition number (s : string) : option (list nat * list nat * string) :=
  match digitpart s with
  | Some (ip, r) =>
      match r with
      | String "." r' =>
          match digitpart r' with
          | Some (fp, r'') => Some (ip, fp, r'')
          | None => Some (ip, [], r')
          end
      | _ => Some (ip, [], r)
      end
  | None =>
      match s with
      | String "." r' =>
          match digitpart r' with
          | Some (fp, r'') => Some ([], fp, r'')
          | None => None
          end
      | _ => None
      end
  end.

(** [[sign]]: whether a minus was read, and what is left. *)
Definition sign (s : string) : bool * string :=
  match s with
  | String "+" r => (false, r)
  | String "-" r => (true, r)
  | _ => (false, s)
  end.

Definition digits_value (ds : list nat) : Z :=
  fold_left (fun acc d => 10 * acc + Z.of_nat d)%Z ds 0%Z.

(** [[exponent]] up to the end of the string. *)
Definition exponent (s : string) : option Z :=
  match s with
  | "" => Some 0%Z
  | String c r =>
      if bool_decide (c = "e"%char) || bool_decide (c = "E"%char) then
        let '(neg, r') := sign r in
        match digitpart r' with
        | Some (ds, "") =>
            Some (if neg then - digits_value ds else digits_value ds)%Z
        | _ => None
        end
      else None
  end.

(** The rational [m * 10^e], in lowest terms. *)
Definition decimal (m e : Z) : Q := Qred (inject_Z m * Qpower (10 # 1) e).

(** The integer nearest to [a / b], ties to even, for [b > 0]. *)
Definition round_half_even (a b : Z) : Z :=
  let q := (a / b)%Z in
  match (2 * (a mod b) ?= b)%Z with
  | Lt => q
  | Gt => (q + 1)%Z
  | Eq => if Z.even q then q else (q + 1)%Z
  end.

(** [n / d] divided by [2^k], as a fraction. *)
Definition scaled (n d k : Z) : Z * Z :=
  if (0 <=? k)%Z then (n, d * 2 ^ k)%Z else (n * 2 ^ (- k), d)%Z.

(** The binary64 number nearest to [q >= 0], with the sign [negative]:
    the last place of a number in [2^E, 2^(E+1)) weighs [2^(E-52)], and
    never less than [2^(-1074)]; from [2^1024] on the result is an
    infinity. *)
Definition binary64 (negative : bool) (q : Q) : pyfloat :=
  let n := Qnum q in
  let d := Zpos (Qden q) in
  let zero := if negative then NegZero else Finite 0 in
  if (n <=? 0)%Z then zero
  else
    let e := (Z.log2 n - Z.log2 d)%Z in
    let '(a, b) := scaled n d e in
    let E := if (b <=? a)%Z then e else (e - 1)%Z in
    let k := Z.max (E - 52) (-1074) in
    let '(a, b) := scaled n d k in
    let m := round_half_even a b in
    if (0 <=? k)%Z && (2 ^ 1024 <=? m * 2 ^ k)%Z then Inf negative
    else if (m =? 0)%Z then zero
    else
      let v := Qred (inject_Z m * Qpower (2 # 1) k) in
      Finite (if negative then Qred (- v) else v).

Definition float (s : string) : result pyfloat :=
  let '(neg, body) := sign (strip s) in
  let word := lower body in
  if bool_decide (word = "inf") || bool_decide (word = "infinity") then
    Ok (Inf neg)
  else if bool_decide (word = "nan") then Ok NaN
  else
    match number body with
    | Some (ip, fp, r) =>
        match exponent r with
        | Some e =>
            Ok (binary64 neg
                  (decimal (digits_value (ip ++ fp))
                           (e - Z.of_nat (length fp))))
        | None => Raise ValueError
        end
    | None => Raise ValueError
    end.

(** ** Dictionaries with string keys *)

(** A value stored in a record: text or a number. *)
Inductive value :=
| Str (s : string)
| Float (x : pyfloat).

Abbreviation dict := (gmap string value).

(** [dict(pairs)]: a later pair overrides an earlier one. *)
Definition dict_of (pairs : list (string * value)) : dict :=
  fold_left (fun d kv => <[kv.1 := kv.2]> d) pairs ∅.

(** [d.update(d')]: the entries of [d'] override those of [d]. *)
Definition update (d d' : dict) : dict := d' ∪ d.

(** [range(lo, hi)]. *)
Definition range (lo hi : nat) : list nat := seq lo (hi - lo).

End py.

Export py (exn(..), result(..)).

Export py (exn(..), result(..)).
Abbreviation dict := (gmap string py.value).

(** * The HTML tree (BeautifulSoup) *)
Module bs4.

(** A parsed document: text leaves and tags.  A tag carries its name, the
    tokens of its multi-valued [class] attribute, its other attributes
    and its children in document order. *)
#[warning="-register-all"]
Inductive node :=
| NavigableString (s : string)
| Tag (name : string) (class_ : list string) (attrs : gmap string string)
      (contents : list node).

(** All nodes below [n], in document order. *)
Fixpoint descendants (n : node) : list node :=
  match n with
  | NavigableString _ => []
  | Tag _ _ _ cs =>
      (fix go (cs : list node) : list node :=
         match cs with
         | [] => []
         | c :: cs' => c :: descendants c ++ go cs'
         end) cs
  end.

Definition is_tag (name : string) (n : node) : bool :=
  match n with
  | NavigableString _ => false
  | Tag name' _ _ _ => bool_decide (name' = name)
  end.

(** Does one of the class tokens of [n] belong to [wanted]? *)
Definition has_class (wanted : list string) (n : node) : bool :=
  match n with
  | NavigableString _ => false
  | Tag _ cls _ _ => existsb (fun c => bool_decide (c ∈ wanted)) cls
  end.

(** [n.find_all(name)]. *)
Definition find_all (name : string) (n : node) : list node :=
  List.filter (is_tag name) (descendants n).

(** [n.find_all(name, {"class": wanted})]; a single class name is the
    one-element list. *)
Definition find_all_class (name : string) (wanted : list string) (n : node)
  : list node :=
  List.filter (fun d => is_tag name d && has_class wanted d) (descendants n).

(** [n.text]: all the text below [n], concatenated. *)
Fixpoint text (n : node) : string :=
  match n with
  | NavigableString s => s
  | Tag _ _ _ cs =>
      (fix go (cs : list node) : string :=
         match cs with
         | [] => ""
         | c :: cs' => text c +:+ go cs'
         end) cs
  end.

(** [n[key]]. *)
Definition getitem (n : node) (key : string) : result string :=
  match n with
  | NavigableString _ => Raise KeyError
  | Tag _ _ attrs _ =>
      match attrs !! key with
      | Some v => Ok v
      | None => Raise KeyError
      end
  end.

End bs4.

(** * pandas *)
Module pd.

(** A frame is kept as its rows, each a record; a column missing from a
    row is a key missing from the record. *)
Abbreviation DataFrame := (list dict).

(** [pd.DataFrame(records)]. *)
Definition DataFrame_of (records : list dict) : DataFrame := records.

(** [pd.concat(frames)]: the rows of all frames in order; raises
    [ValueError] when there is no frame to concatenate. *)
Definition concat (frames : list DataFrame) : result DataFrame :=
  match frames with
  | [] => Raise ValueError
  | _ => Ok (List.concat frames)
  end.

End pd.

(** * What the module obtains from outside *)
Class World := {
  (** [requests.get(url).content] *)
  requests_get : string -> result string;
  (** [BeautifulSoup(content, 'html.parser')] *)
  BeautifulSoup : string -> result bs4.node;
  (** [f = open(filename, "r"); f.read()] *)
  open_read : string -> result string;
}.

(** * [src/wkf_kata_machine_learning/data_utils.py] *)
Module data_utils.
Section with_world.
Context `{W : World}.

Definition base_path : string := "https://www.sportdata.org/wkf/set-online/".

(** Lines 23-32. *)
Definition category_data (category_url : string)
  : result (list bs4.node * string * string) :=
  content ← requests_get category_url;
  soup ← BeautifulSoup content;
  header ← py.getitem (bs4.find_all_class "div" ["newsheader"] soup) 0;
  '(tournament, category) ←
    py.unpack2 (py.rsplit1 " - " (py.str_slice_to_neg 2 (bs4.text header)));
  let tables := bs4.find_all_class "table" ["moduletable_draw"] soup in
  Ok (tables, tournament, category).

(** Lines 88-89: [float(i.replace(',', '.'))]. *)
Definition to_grade (i : string) : result py.pyfloat :=
  py.float (py.replace "," "." i).

(** Lines 100-101: [["TEC" + str(i+1) for i in range(0, n)]]. *)
Definition grade_names (prefix : string) (n : nat) : list string :=
  (fun i => prefix +:+ py.str (i + 1)) <$> py.range 0 n.

(** Lines 92-104: the record of one performance. *)
Definition perf_record (tournament category pool competitor_name
    nationality kata : string)
    (technical_grades athletic_grades : list py.pyfloat)
    (total_score : py.pyfloat) : dict :=
  let perf_data : dict :=
    <["Kata" := py.Str kata]>
    (<["Nationality" := py.Str nationality]>
    (<["Name" := py.Str competitor_name]>
    (<["Pool" := py.Str pool]>
    (<["Category" := py.Str category]>
    (<["Tournament" := py.Str tournament]> ∅))))) in
  let TEC_names := grade_names "TEC" (length technical_grades) in
  let ATH_names := grade_names "ATH" (length athletic_grades) in
  let perf_data :=
    py.update perf_data
      (py.dict_of (zip TEC_names (py.Float <$> technical_grades))) in
  let perf_data :=
    py.update perf_data
      (py.dict_of (zip ATH_names (py.Float <$> athletic_grades))) in
  py.update perf_data (py.dict_of [("Score", py.Float total_score)]).

(** Lines 72-107: the body of the loop over the result rows of one pool
    table; [data] is the list the records are appended to. *)
Definition performance_body (tournament category pool : string)
    (data : list dict) (performance : bs4.node) : result (list dict) :=
  b ← py.getitem (bs4.find_all "b" performance) 0;
  let competitor := bs4.text b in
  competitor_name ← py.getitem (py.rsplit1 " (" competitor) 0;
  segment ← py.getitem_last (py.rsplit1 "," competitor);
  let nationality := py.str_slice_to_neg 1 segment in
  cell ← py.getitem (bs4.find_all "td" performance) 2;
  let kata := bs4.text cell in
  if (0 <? py.len kata) && (0 <? length (bs4.find_all "tr" performance)) then
    rows ← py.comprehension
              (fun i => tr ← py.getitem (bs4.find_all "tr" performance) i;
                        Ok (bs4.find_all "td" tr))
              (py.range 0 2);
    '(TEC, ATH) ← py.unpack2 rows;
    let technical_grades := bs4.text <$> py.slice 1 8 TEC in
    let athletic_grades := bs4.text <$> py.slice 1 8 ATH in
    tec_last ← py.getitem_last TEC;
    technical_score ← py.float (bs4.text tec_last);
    ath_last ← py.getitem_last ATH;
    athletic_score ← py.float (bs4.text ath_last);
    last_cell ← py.getitem_last (bs4.find_all "td" performance);
    total_score ← py.float (bs4.text last_cell);
    technical_grades ← py.comprehension to_grade technical_grades;
    athletic_grades ← py.comprehension to_grade athletic_grades;
    Ok (data ++ [perf_record tournament category pool competitor_name
                   nationality kata technical_grades athletic_grades
                   total_score])
  else Ok data.

(** Lines 67-107: the body of the loop over the pool tables. *)
Definition table_body (tournament category : string)
    (data : list dict) (table : bs4.node) : result (list dict) :=
  first_row ← py.getitem (bs4.find_all "tr" table) 0;
  pool ← py.getitem (py.split ":" (bs4.text first_row)) 1;
  let performances :=
    bs4.find_all_class "tr" ["dctabrowwhite"; "dctabrowgreen"] table in
  py.for_each
    (fun data k =>
       performance ← py.getitem performances k;
       performance_body tournament category pool data performance)
    (py.range 0 (length performances)) data.

(** Lines 62-109. *)
Definition get_round_performances (url : string) : result (list dict) :=
  '(tables, tournament, category) ← category_data url;
  py.for_each (table_body tournament category) tables [].

(** Lines 122-129. *)
Definition get_rounds_urls (draws_url : string) : result (list string) :=
  content ← requests_get draws_url;
  soup ← BeautifulSoup content;
  let datalink2s :=
    py.slice_to_neg 3 (bs4.find_all_class "a" ["datalink2"] soup) in
  py.for_each
    (fun urls link =>
       keep ← (title ← bs4.getitem link "title";
               if py.contains "Male Kata" title then Ok true
               else title' ← bs4.getitem link "title";
                    Ok (py.contains "Female Kata" title'));
       if keep : bool then
         href ← bs4.getitem link "href"; Ok (urls ++ [base_path +:+ href])
       else Ok urls)
    datalink2s [].

(** Lines 144-150. *)
Definition get_performances (draws_url : string) : result pd.DataFrame :=
  urls ← get_rounds_urls draws_url;
  data_rounds ←
    py.comprehension
      (fun i => data ← get_round_performances i; Ok (pd.DataFrame_of data))
      urls;
  pd.concat data_rounds.

(** Lines 165-169. *)
Definition concat_tournaments (filename : string) : result pd.DataFrame :=
  text ← open_read filename;
  let draws_urls := py.splitlines text in
  frames ← py.comprehension get_performances draws_urls;
  df ← pd.concat frames;
  Ok df.

End with_world.
End data_utils.

(** * [src/wkf-kata-machine-learning/data_utils.py] *)
Module data_utils_copy.
Section with_world.
Context `{W : World}.

Definition base_path : string := "https://www.sportdata.org/wkf/set-online/".

(** Lines 8-17. *)
Definition category_data (category_url : string)
  : result (list bs4.node * string * string) :=
  content ← requests_get category_url;
  soup ← BeautifulSoup content;
  header ← py.getitem (bs4.find_all_class "div" ["newsheader"] soup) 0;
  '(tournament, category) ←
    py.unpack2 (py.rsplit1 " - " (py.str_slice_to_neg 2 (bs4.text header)));
  let tables := bs4.find_all_class "table" ["moduletable_draw"] soup in
  Ok (tables, tournament, category).

(** Lines 47-48: [float(i.replace(',', '.'))]. *)
Definition to_grade (i : string) : result py.pyfloat :=
  py.float (py.replace "," "." i).

(** Lines 61-62: [["TEC" + str(i+1) for i in range(0, n)]]. *)
Definition grade_names (prefix : string) (n : nat) : list string :=
  (fun i => prefix +:+ py.str (i + 1)) <$> py.range 0 n.

(** Lines 53-65: the record of one performance. *)
Definition perf_record (tournament category pool competitor_name
    nationality kata : string)
    (technical_grades athletic_grades : list py.pyfloat)
    (total_score : py.pyfloat) : dict :=
  let perf_data : dict :=
    <["Kata" := py.Str kata]>
    (<["Nationality" := py.Str nationality]>
    (<["Name" := py.Str competitor_name]>
    (<["Pool" := py.Str pool]>
    (<["Category" := py.Str category]>
    (<["Tournament" := py.Str tournament]> ∅))))) in
  let TEC_names := grade_names "TEC" (length technical_grades) in
  let ATH_names := grade_names "ATH" (length athletic_grades) in
  let perf_data :=
    py.update perf_data
      (py.dict_of (zip TEC_names (py.Float <$> technical_grades))) in
  let perf_data :=
    py.update perf_data
      (py.dict_of (zip ATH_names (py.Float <$> athletic_grades))) in
  py.update perf_data (py.dict_of [("Score", py.Float total_score)]).

(** Lines 31-68: the body of the loop over the result rows of one pool
    table; [data] is the list the records are appended to. *)
Definition performance_body (tournament category pool : string)
    (data : list dict) (performance : bs4.node) : result (list dict) :=
  b ← py.getitem (bs4.find_all "b" performance) 0;
  let competitor := bs4.text b in
  competitor_name ← py.getitem (py.rsplit1 " (" competitor) 0;
  segment ← py.getitem_last (py.rsplit1 "," competitor);
  let nationality := py.str_slice_to_neg 1 segment in
  cell ← py.getitem (bs4.find_all "td" performance) 2;
  let kata := bs4.text cell in
  if (0 <? py.len kata) && (0 <? length (bs4.find_all "tr" performance)) then
    rows ← py.comprehension
              (fun i => tr ← py.getitem (bs4.find_all "tr" performance) i;
                        Ok (bs4.find_all "td" tr))
              (py.range 0 2);
    '(TEC, ATH) ← py.unpack2 rows;
    let technical_grades := bs4.text <$> py.slice 1 8 TEC in
    let athletic_grades := bs4.text <$> py.slice 1 8 ATH in
    tec_last ← py.getitem_last TEC;
    technical_score ← py.float (bs4.text tec_last);
    ath_last ← py.getitem_last ATH;
    athletic_score ← py.float (bs4.text ath_last);
    last_cell ← py.getitem_last (bs4.find_all "td" performance);
    total_score ← py.float (bs4.text last_cell);
    technical_grades ← py.comprehension to_grade technical_grades;
    athletic_grades ← py.comprehension to_grade athletic_grades;
    Ok (data ++ [perf_record tournament category pool competitor_name
                   nationality kata technical_grades athletic_grades
                   total_score])
  else Ok data.

(** Lines 26-68: the body of the loop over the pool tables. *)
Definition table_body (tournament category : string)
    (data : list dict) (table : bs4.node) : result (list dict) :=
  first_row ← py.getitem (bs4.find_all "tr" table) 0;
  pool ← py.getitem (py.split ":" (bs4.text first_row)) 1;
  let performances :=
    bs4.find_all_class "tr" ["dctabrowwhite"; "dctabrowgreen"] table in
  py.for_each
    (fun data k =>
       performance ← py.getitem performances k;
       performance_body tournament category pool data performance)
    (py.range 0 (length performances)) data.

(** Lines 21-70. *)
Definition get_round_performances (url : string) : result (list dict) :=
  '(tables, tournament, category) ← category_data url;
  py.for_each (table_body tournament category) tables [].

(** Lines 74-81. *)
Definition get_rounds_urls (draws_url : string) : result (list string) :=
  content ← requests_get draws_url;
  soup ← BeautifulSoup content;
  let datalink2s :=
    py.slice_to_neg 3 (bs4.find_all_class "a" ["datalink2"] soup) in
  py.for_each
    (fun urls link =>
       keep ← (title ← bs4.getitem link "title";
               if py.contains "Male Kata" title then Ok true
               else title' ← bs4.getitem link "title";
                    Ok (py.contains "Female Kata" title'));
       if keep : bool then
         href ← bs4.getitem link "href"; Ok (urls ++ [base_path +:+ href])
       else Ok urls)
    datalink2s [].

(** Lines 85-91. *)
Definition get_performances (draws_url : string) : result pd.DataFrame :=
  urls ← get_rounds_urls draws_url;
  data_rounds ←
    py.comprehension
      (fun i => data ← get_round_performances i; Ok (pd.DataFrame_of data))
      urls;
  pd.concat data_rounds.

(** Lines 94-98. *)
Definition concat_tournaments (filename : string) : result pd.DataFrame :=
  text ← open_read filename;
  let draws_urls := py.splitlines text in
  frames ← py.comprehension get_performances draws_urls;
  df ← pd.concat frames;
  Ok df.

End with_world.
End data_utils_copy.

(** * The vocabulary of the specification

    The notions below are written from the words of the specification, to
    be compared with what the code computes. *)
Module spec.

(** 4.2 (b): the kata label is the text of the third cell. *)
Definition kata_label (row : bs4.node) : option string :=
  bs4.text <$> bs4.find_all "td" row !! 2.

(** 4.2 (c): the row lacks the two nested sub-rows carrying the grades. *)
Definition lacks_grade_rows (row : bs4.node) : Prop :=
  length (bs4.find_all "tr" row) < 2.

(** 7, [IncompleteRecordCondition]. *)
Definition incomplete (row : bs4.node) : Prop :=
  kata_label row = Some "" \/ lacks_grade_rows row.

(** 3, [PerformanceRecord]: the field names of a record that carries [n]
    technical and [m] athletic grades. *)
Definition numbered (prefix : string) (n : nat) : list string :=
  (fun i => prefix +:+ py.str i) <$> seq 1 n.

Definition fields (n m : nat) : gset string :=
  list_to_set
    (["Tournament"; "Category"; "Pool"; "Name"; "Nationality"; "Kata"]
     ++ numbered "TEC" n ++ numbered "ATH" m ++ ["Score"]).

(** 8: the decimal-comma form, digits, a comma, digits. *)
Fixpoint all_digits (s : string) : bool :=
  match s with
  | "" => true
  | String c s' => bool_decide (is_Some (py.is_digit c)) && all_digits s'
  end.

Definition digit_string (s : string) : bool :=
  negb (bool_decide (s = "")) && all_digits s.

Fixpoint decimal_comma_form (s : string) : bool :=
  match s with
  | "" => false
  | String c s' =>
      bool_decide (is_Some (py.is_digit c))
      && (match s' with
          | String "," s'' => digit_string s''
          | _ => false
          end
          || decimal_comma_form s')
  end.

(** 4.1: trailing punctuation and white space stripped from the header. *)
Definition is_punctuation (c : ascii) : bool :=
  let n := nat_of_ascii c in
  ((33 <=? n) && (n <=? 47)) || ((58 <=? n) && (n <=? 64))
  || ((91 <=? n) && (n <=? 96)) || ((123 <=? n) && (n <=? 126)).

Fixpoint rstrip_punctuation (s : string) : string :=
  match s with
  | "" => ""
  | String c s' =>
      match rstrip_punctuation s' with
      | "" => if py.is_space c || is_punctuation c then "" else String c ""
      | r => String c r
      end
  end.

(** 4.1: the final [" - "]-delimited segment and the remainder. *)
Definition split_header (header : string) : list string :=
  py.rsplit1 " - " (rstrip_punctuation header).

(** 4.2 (a): the bold identity text ["<name> (<city>, <country>)"]. *)
Definition identity (name city country : string) : string :=
  name +:+ " (" +:+ city +:+ ", " +:+ country +:+ ")".

(** 4.2 (a): split on the first [" ("] and keep the prefix. *)
Definition before_first (sep s : string) : string :=
  match py.find sep s with
  | Some i => py.str_take i s
  | None => s
  end.

(** 4.3: the title marks an individual kata category. *)
Definition kata_title (title : string) : bool :=
  py.contains "Male Kata" title || py.contains "Female Kata" title.

(** 4.3: an attribute of a link, when present. *)
Definition attribute (key : string) (link : bs4.node) : option string :=
  match link with
  | bs4.NavigableString _ => None
  | bs4.Tag _ _ attrs _ => attrs !! key
  end.

(** 4.3: all category links but the last three. *)
Definition candidate_links (soup : bs4.node) : list bs4.node :=
  let links := bs4.find_all_class "a" ["datalink2"] soup in
  take (length links - 3) links.

(** 4.3: the candidates whose title text marks a kata category. *)
Definition kept_links (soup : bs4.node) : list bs4.node :=
  List.filter
    (fun link => from_option kata_title false (attribute "title" link))
    (candidate_links soup).

(** 4.3: the relative reference of a link, resolved against the base. *)
Definition resolve (link : bs4.node) : string :=
  data_utils.base_path +:+ default "" (attribute "href" link).

End spec.

(** * Sample pages *)
Module sample.
Import bs4.

Definition el (name : string) (cs : list node) : node := Tag name [] ∅ cs.
Definition txt (name : string) (s : string) : node :=
  Tag name [] ∅ [NavigableString s].

(** A grade sub-row: a label, the grades, a subtotal. *)
Definition grade_row (label : string) (grades : list string)
    (subtotal : string) : node :=
  el "tr" (txt "td" label :: (txt "td" <$> grades) ++ [txt "td" subtotal]).

Definition seven : list string :=
  ["8,0"; "8,2"; "8,4"; "8,0"; "7,8"; "8,2"; "8,0"].

(** A result row: identity, a filler cell, the kata, the nested grade
    rows and the final score. *)
Definition result_row (cls identity kata : string) (subrows : list node)
    (score : string) : node :=
  Tag "tr" [cls] ∅
    [ el "td" [txt "b" identity];
      txt "td" "1";
      txt "td" kata;
      el "td" [el "table" subrows];
      txt "td" score ].

Definition full_row : node :=
  result_row "dctabrowwhite" "Ann Lee (Paris,FRA)" "001 Anan"
    [grade_row "TEC" seven "24.2"; grade_row "ATH" seven "24.4"] "24.26".

Definition no_show_row : node :=
  result_row "dctabrowgreen" "Bea Roy (Rome,ITA)" "" [] "".

Definition pool_table (label : string) (rows : list node) : node :=
  Tag "table" ["moduletable_draw"] ∅ (el "tr" [txt "td" label] :: rows).

Definition page (header : string) (tables : list node) : node :=
  el "[document]"
    (Tag "div" ["newsheader"] ∅ [NavigableString header] :: tables).

Definition link (title href : string) : node :=
  Tag "a" ["datalink2"] {[ "title" := title; "href" := href ]} [].

(** A world serving one page under every URL. *)
Definition one_page (doc : node) : World :=
  {| requests_get := fun _ => Ok "";
     BeautifulSoup := fun _ => Ok doc;
     open_read := fun _ => Ok "" |}.

(** A row with a single nested sub-row. *)
Definition single_sub_row : node :=
  result_row "dctabrowwhite" "Cleo Diaz (Lima,PER)" "007 Unsu"
    [grade_row "TEC" seven "24.2"] "24.2".

(** A row with an empty kata label and no bold identity. *)
Definition no_bold_row : node :=
  Tag "tr" ["dctabrowgreen"] ∅
    [ txt "td" "Bea Roy (Rome,ITA)"; txt "td" "1"; txt "td" ""; txt "td" "" ].

(** A row whose sub-rows hold a label, one grade and a subtotal. *)
Definition short_row : node :=
  result_row "dctabrowwhite" "Dana Eng (Oslo,NOR)" "012 Gankaku"
    [grade_row "TEC" ["8,0"] "8.0"; grade_row "ATH" ["7,8"] "7.8"] "7.94".


(** A complete row whose identity has a space after the comma and a
    parenthesis inside the name. *)
Definition spaced_identity_row : node :=
  result_row "dctabrowwhite" "Ann (Jr) Lee (Paris, FRA)" "001 Anan"
    [grade_row "TEC" seven "24.2"; grade_row "ATH" seven "24.4"] "24.26".

(** The record of [full_row] in pool "1" of category "C" of tournament
    "T". *)
Definition full_record : dict :=
  match data_utils.performance_body "T" "C" "1" [] full_row with
  | Ok [rec] => rec
  | _ => ∅
  end.

(** The record of [spaced_identity_row]. *)
Definition spaced_record : dict :=
  match data_utils.performance_body "T" "C" "1" [] spaced_identity_row with
  | Ok [rec] => rec
  | _ => ∅
  end.

(** An event page without any category link, and an empty list file. *)
Definition empty_event : World := one_page (el "[document]" []).

(** A category page with a header but no pool table. *)
Definition no_table_page : World := one_page (page "T - C. " []).

(** A category page without the header block. *)
Definition no_header_page : World := one_page (el "[document]" []).

(** A draws index: two kata categories, one kumite category, and the
    three trailing navigation entries. *)
Definition draws_index : World :=
  one_page
    (el "[document]"
       [ link "Male Kata R1" "a.php";
         link "Female Kumite -50 kg" "b.php";
         link "Female Kata" "c.php";
         link "Male Kata" "x.php";
         link "Summary" "y.php";
         link "Overview" "z.php" ]).

End sample.

(** * The outcome of one result row *)

(** The row is passed over: it has a bold element and a third cell, and
    the guard of line 82 is false. *)
Definition skips (row : bs4.node) : Prop :=
  is_Some (bs4.find_all "b" row !! 0)
  /\ exists cell,
       bs4.find_all "td" row !! 2 = Some cell
       /\ (bs4.text cell = "" \/ bs4.find_all "tr" row = []).

(** The body of the row loop reaches line 107 on [row] and appends the
    record [rec]. *)
Inductive emits (tournament category pool : string) (row : bs4.node)
  : dict -> Prop :=
| emits_record b name segment cell tr0 tr1 tec_last ath_last last_cell
    technical_score athletic_score total_score technical_grades
    athletic_grades :
    bs4.find_all "b" row !! 0 = Some b ->
    py.rsplit1 " (" (bs4.text b) !! 0 = Some name ->
    last (py.rsplit1 "," (bs4.text b)) = Some segment ->
    bs4.find_all "td" row !! 2 = Some cell ->
    bs4.text cell <> "" ->
    bs4.find_all "tr" row !! 0 = Some tr0 ->
    bs4.find_all "tr" row !! 1 = Some tr1 ->
    last (bs4.find_all "td" tr0) = Some tec_last ->
    py.float (bs4.text tec_last) = Ok technical_score ->
    last (bs4.find_all "td" tr1) = Some ath_last ->
    py.float (bs4.text ath_last) = Ok athletic_score ->
    last (bs4.find_all "td" row) = Some last_cell ->
    py.float (bs4.text last_cell) = Ok total_score ->
    py.comprehension data_utils.to_grade
      (bs4.text <$> py.slice 1 8 (bs4.find_all "td" tr0))
    = Ok technical_grades ->
    py.comprehension data_utils.to_grade
      (bs4.text <$> py.slice 1 8 (bs4.find_all "td" tr1))
    = Ok athletic_grades ->
    emits tournament category pool row
      (data_utils.perf_record tournament category pool name
         (py.str_slice_to_neg 1 segment) (bs4.text cell)
         technical_grades athletic_grades total_score).

(** The invariant of the list of records across a whole page. *)
Definition record_of_at_most_seven (rec : dict) : Prop :=
  exists n m kata,
    n <= 7 /\ m <= 7
    /\ dom rec = spec.fields n m
    /\ size (dom rec) = 7 + n + m
    /\ rec !! "Kata" = Some (py.Str kata)
    /\ kata <> "".

(** No character of [s] is a comma. *)
Fixpoint comma_free (s : string) : bool :=
  match s with
  | "" => true
  | String c s' => negb (bool_decide (c = ","%char)) && comma_free s'
  end.

(** * Results as a functor *)

(** [f] applied to what a computation returns. *)
Global Instance result_fmap : FMap result := fun A B f m =>
  match m with
  | Ok a => Ok (f a)
  | Raise e => Raise e
  end.

(** * More sample pages *)
Module more_samples.
Import bs4.

(** A complete row whose technical subtotal is written with a comma. *)
Definition comma_subtotal_row : node :=
  sample.result_row "dctabrowwhite" "Ann Lee (Paris,FRA)" "001 Anan"
    [ sample.grade_row "TEC" sample.seven "24,2";
      sample.grade_row "ATH" sample.seven "24.4" ] "24.26".

(** An index page whose second category link has no title. *)
Definition untitled_candidate : World :=
  sample.one_page
    (sample.el "[document]"
       [ sample.link "Male Kata" "a.php";
         Tag "a" ["datalink2"] {[ "href" := "b.php" ]} [];
         sample.link "Summary" "x.php";
         sample.link "Overview" "y.php";
         sample.link "Results" "z.php" ]).

(** A page with three category links, none of which has a title. *)
Definition three_untitled_links : World :=
  sample.one_page
    (sample.el "[document]"
       [ Tag "a" ["datalink2"] ∅ []; Tag "a" ["datalink2"] ∅ [];
         Tag "a" ["datalink2"] ∅ [] ]).

(** A page that is at once the index of an event with one kata round and
    the page of that round, with one pool of two rows. *)
Definition event_page : node :=
  sample.el "[document]"
    [ Tag "div" ["newsheader"] ∅ [NavigableString "Open - Male Kata. "];
      sample.link "Male Kata" "round.php";
      sample.link "Summary" "x.php";
      sample.link "Overview" "y.php";
      sample.link "Results" "z.php";
      sample.pool_table "Pool: 1 / 1" [sample.full_row; sample.no_show_row] ].

(** A world that serves [event_page] under every URL and whose list files
    hold the two lines ["event-a"] and ["event-b"]. *)
Definition two_events : World :=
  {| requests_get := fun _ => Ok "";
     BeautifulSoup := fun _ => Ok event_page;
     open_read := fun _ => Ok ("event-a" +:+ String "010" "event-b") |}.

(** The records of the round of [event_page]. *)
Definition event_round : list dict :=
  match data_utils.get_round_performances (W := two_events) "round" with
  | Ok round => round
  | Raise _ => []
  end.

End more_samples.

(** * List files *)

(** No character of [s] ends a line. *)
Fixpoint one_line (s : string) : bool :=
  match s with
  | "" => true
  | String c s' => negb (py.is_linebreak c) && one_line s'
  end.

(** The text of a file whose lines are [lines], each ended by a newline. *)
Fixpoint unlines (lines : list string) : string :=
  match lines with
  | [] => ""
  | l :: lines' => l +:+ String "010" (unlines lines')
  end.

(** * The script of [data_utils.py], lines 172-190

    What the script sees and changes outside the module: the paths for
    which [isfile] holds, the tables written by [to_csv] and the lines
    printed.  A step of the script returns or raises, and leaves the disk
    in some state in both cases. *)
Module script.

Record disk := {
  files : gset string;
  tables : gmap string (list dict);
  stdout : list string;
}.

Definition io (A : Type) : Type := disk -> result A * disk.

Global Instance io_ret : MRet io := fun A a d => (Ok a, d).
Global Instance io_bind : MBind io := fun A B f m d =>
  match m d with
  | (Ok a, d') => f a d'
  | (Raise e, d') => (Raise e, d')
  end.

(** A call into the module: it does not touch the disk. *)
Definition call {A} (m : result A) : io A := fun d => (m, d).

(** [isfile(path)] *)
Definition isfile (path : string) : io bool :=
  fun d => (Ok (bool_decide (path ∈ files d)), d).

(** [print(line)] *)
Definition print (line : string) : io unit :=
  fun d =>
    (Ok (),
     {| files := files d; tables := tables d; stdout := stdout d ++ [line] |}).

(** [df.to_csv(path, index=False)] *)
Definition to_csv (df : list dict) (path : string) : io unit :=
  fun d =>
    (Ok (),
     {| files := {[path]} ∪ files d;
        tables := <[path := df]> (tables d);
        stdout := stdout d |}).

Section with_world.
Context `{W : World}.

(** Lines 176-190. *)
Definition main : io unit :=
  let premier_league_csv := "premier_league.csv" in
  present ← isfile premier_league_csv;
  _ ← (if present : bool then
         print ("File '" +:+ premier_league_csv +:+ "' already exists")
       else
         let premier_league_file := "premier-league.txt" in
         premier_league_df ←
           call (data_utils.concat_tournaments premier_league_file);
         to_csv premier_league_df premier_league_csv);
  let series_A_csv := "series_A.csv" in
  present ← isfile series_A_csv;
  if present : bool then
    print ("File '" +:+ series_A_csv +:+ "' already exists")
  else
    let series_A_file := "series-A.txt" in
    series_A_df ← call (data_utils.concat_tournaments series_A_file);
    to_csv series_A_df series_A_csv.

End with_world.
End script.

(** * Sample runs of the script *)
Module sample_runs.

Definition empty_disk : script.disk :=
  {| script.files := ∅; script.tables := ∅; script.stdout := [] |}.

(** The disk after a run from [empty_disk] in the world [two_events]. *)
Definition after_run : script.disk :=
  (script.main (W := more_samples.two_events) empty_disk).2.

(** A world like [two_events] in which only ["premier-league.txt"] can be
    read. *)
Definition half_world : World :=
  {| requests_get := fun _ => Ok "";
     BeautifulSoup := fun _ => Ok more_samples.event_page;
     open_read := fun filename =>
       if bool_decide (filename = "premier-league.txt") then Ok "event-a"
       else Raise OSError |}.

(** The table of the first series in [half_world]. *)
Definition premier_frame : list dict :=
  match data_utils.concat_tournaments (W := half_world) "premier-league.txt"
  with
  | Ok df => df
  | Raise _ => []
  end.

End sample_runs.

(** Some character of [s] is a digit. *)
Fixpoint has_digit (s : string) : bool :=
  match s with
  | "" => false
  | String c s' => bool_decide (is_Some (py.is_digit c)) || has_digit s'
  end.

(** The number of dots of [s]. *)
Fixpoint dots (s : string) : nat :=
  match s with
  | "" => 0
  | String c s' => (if bool_decide (c = "."%char) then 1 else 0) + dots s'
  end.

(** The number of commas and dots of [s]. *)
Fixpoint separators (s : string) : nat :=
  match s with
  | "" => 0
  | String c s' =>
      (if bool_decide (c = ","%char) || bool_decide (c = "."%char)
       then 1 else 0) + separators s'
  end.

(** * Facts about the Python layer *)
Section python_facts.

Lemma bind_Ok {A B} (m : result A) (f : A -> result B) (b : B) :
  m ≫= f = Ok b <-> exists a, m = Ok a /\ f a = Ok b.
Proof.
  destruct m as [a|e]; simpl; split.
  - intros Hf. exists a. split; [reflexivity|exact Hf].
  - intros (a' & Ha & Hf). injection Ha as ->. exact Hf.
  - discriminate.
  - intros (a' & Ha & _). discriminate.
Qed.

Lemma bind_Raise {A B} (m : result A) (f : A -> result B) (e : exn) :
  m ≫= f = Raise e <->
  m = Raise e \/ exists a, m = Ok a /\ f a = Raise e.
Proof.
  destruct m as [a|e']; simpl; split.
  - intros Hf. right. exists a. split; [reflexivity|exact Hf].
  - intros [Hm | (a' & Ha & Hf)]; [discriminate|].
    injection Ha as ->. exact Hf.
  - intros [= ->]. left. reflexivity.
  - intros [[= ->] | (a' & Ha & _)]; [reflexivity|discriminate].
Qed.

Lemma for_each_app {A St} (body : St -> A -> result St) xs ys acc :
  py.for_each body (xs ++ ys) acc =
  py.for_each body xs acc ≫= py.for_each body ys.
Proof.
  revert acc. induction xs as [|x xs IH]; intros acc; simpl.
  - reflexivity.
  - destruct (body acc x) as [acc'|e]; simpl; [apply IH|reflexivity].
Qed.

(** An invariant of the accumulator that every iteration keeps is kept
    by the loop. *)
Lemma for_each_invariant {A St} (P : St -> Prop)
    (body : St -> A -> result St) xs :
  (forall acc x acc', P acc -> body acc x = Ok acc' -> P acc') ->
  forall acc acc', P acc -> py.for_each body xs acc = Ok acc' -> P acc'.
Proof.
  intros Hbody. induction xs as [|x xs IH]; intros acc acc' Hacc; simpl.
  - intros [= <-]. exact Hacc.
  - intros (acc1 & H1 & H2)%bind_Ok. eauto.
Qed.

Lemma getitem_lookup {A} (xs : list A) i x :
  xs !! i = Some x -> py.getitem xs i = Ok x.
Proof. unfold py.getitem. intros ->. reflexivity. Qed.

Lemma getitem_Ok {A} (xs : list A) i x :
  py.getitem xs i = Ok x <-> xs !! i = Some x.
Proof.
  unfold py.getitem. destruct (xs !! i); split; congruence.
Qed.

Lemma getitem_nil {A} i : py.getitem (@nil A) i = Raise IndexError.
Proof. unfold py.getitem. rewrite lookup_nil. reflexivity. Qed.

Lemma getitem_last_Ok {A} (xs : list A) x :
  py.getitem_last xs = Ok x <-> last xs = Some x.
Proof.
  unfold py.getitem_last. destruct (last xs); split; congruence.
Qed.

(** [for k in range(len(xs)): x = xs[k]; ...] visits the elements of
    [xs] in order. *)
Lemma for_each_index {A St} (body : St -> A -> result St) (xs : list A) :
  forall pre acc,
    py.for_each (fun acc k => x ← py.getitem (pre ++ xs) k; body acc x)
                (seq (length pre) (length xs)) acc
    = py.for_each body xs acc.
Proof.
  induction xs as [|x xs IH]; intros pre acc; simpl.
  - reflexivity.
  - rewrite (getitem_lookup _ _ x) by apply list_lookup_middle, eq_refl.
    simpl. destruct (body acc x) as [acc'|e]; simpl; [|reflexivity].
    specialize (IH (pre ++ [x]) acc').
    rewrite <- app_assoc, length_app, Nat.add_1_r in IH. exact IH.
Qed.

Lemma for_each_range {A St} (body : St -> A -> result St) (xs : list A) acc :
  py.for_each (fun acc k => x ← py.getitem xs k; body acc x)
              (py.range 0 (length xs)) acc
  = py.for_each body xs acc.
Proof.
  unfold py.range. rewrite Nat.sub_0_r. apply (for_each_index body xs []).
Qed.

Lemma comprehension_length {A B} (f : A -> result B) xs ys :
  py.comprehension f xs = Ok ys -> length ys = length xs.
Proof.
  revert ys. induction xs as [|x xs IH]; intros ys; simpl.
  - intros [= <-]. reflexivity.
  - intros (y & _ & (ys' & Hys & [= <-])%bind_Ok)%bind_Ok.
    simpl. f_equal. apply IH, Hys.
Qed.

End python_facts.

(** * The two copies of the module *)

(** C9.  The two copies of the extraction module agree: for every outside
    world and every argument, each of the five public functions of
    [src/wkf_kata_machine_learning/data_utils.py] returns (or raises)
    exactly what its counterpart in
    [src/wkf-kata-machine-learning/data_utils.py] does. *)
Theorem copies_agree `{W : World} :
  (forall url,
      data_utils.category_data url = data_utils_copy.category_data url)
  /\ (forall url,
      data_utils.get_round_performances url
      = data_utils_copy.get_round_performances url)
  /\ (forall url,
      data_utils.get_rounds_urls url = data_utils_copy.get_rounds_urls url)
  /\ (forall url,
      data_utils.get_performances url = data_utils_copy.get_performances url)
  /\ (forall filename,
      data_utils.concat_tournaments filename
      = data_utils_copy.concat_tournaments filename).
Proof. repeat split. Qed.

(** * The aggregators on empty input *)

Lemma splitlines_go_nil cur s :
  py.splitlines_go cur s = [] <-> cur = "" /\ s = "".
Proof.
  revert cur. induction s as [|c s IH]; intros cur; simpl.
  - case_bool_decide; split; try tauto; discriminate.
  - split; [|intros [_ [=]]].
    intros Hnil. exfalso.
    destruct c as [[] [] [] [] [] [] [] []]; simpl in Hnil;
      try discriminate Hnil;
      try (apply IH in Hnil as [[=] _]).
    destruct s as [|[[] [] [] [] [] [] [] []] s']; discriminate Hnil.
Qed.

(** A list file yields no URL exactly when it is empty. *)
Lemma splitlines_nil text : py.splitlines text = [] <-> text = "".
Proof.
  unfold py.splitlines. rewrite splitlines_go_nil. tauto.
Qed.

(** C10.  The aggregators are undefined on empty input: when the Round URL
    Collector yields no kata round link, [get_performances] raises
    [ValueError] (there is nothing for [pd.concat] to concatenate), and
    [concat_tournaments] raises [ValueError] on a list file that contains
    no URL. *)
Theorem aggregators_raise_on_empty `{W : World} :
  (forall draws_url,
      data_utils.get_rounds_urls draws_url = Ok [] ->
      data_utils.get_performances draws_url = Raise ValueError)
  /\ (forall filename text,
      open_read filename = Ok text ->
      py.splitlines text = [] ->
      data_utils.concat_tournaments filename = Raise ValueError).
Proof.
  split.
  - intros draws_url Hurls. unfold data_utils.get_performances.
    rewrite Hurls. reflexivity.
  - intros filename text Hread Hlines. unfold data_utils.concat_tournaments.
    rewrite Hread. simpl. rewrite Hlines. reflexivity.
Qed.

Lemma aggregators_raise_on_empty_witness :
  data_utils.get_performances (W := sample.empty_event) "event"
  = Raise ValueError
  /\ data_utils.concat_tournaments (W := sample.empty_event) "list.txt"
     = Raise ValueError.
Proof.
  split.
  - apply (proj1 (aggregators_raise_on_empty (W := sample.empty_event))).
    reflexivity.
  - apply (proj2 (aggregators_raise_on_empty (W := sample.empty_event))
             "list.txt" "").
    + reflexivity.
    + reflexivity.
Defined.

(** * Searching in strings *)

Lemma find_is_Some sub c s :
  is_Some (py.find sub (String c s))
  <-> py.startswith sub (String c s) = true \/ is_Some (py.find sub s).
Proof.
  change (py.find sub (String c s))
    with (if py.startswith sub (String c s) then Some 0
          else S <$> py.find sub s).
  destruct (py.startswith sub (String c s)).
  - split; [intros _; left; reflexivity | intros _; eexists; reflexivity].
  - rewrite fmap_is_Some. split; [intros ?; right; assumption|].
    intros [[=]|?]; assumption.
Qed.

Lemma rfind_is_Some sub c s :
  is_Some (py.rfind sub (String c s))
  <-> py.startswith sub (String c s) = true \/ is_Some (py.rfind sub s).
Proof.
  change (py.rfind sub (String c s))
    with (match py.rfind sub s with
          | Some i => Some (S i)
          | None => if py.startswith sub (String c s) then Some 0 else None
          end).
  destruct (py.rfind sub s) as [i|].
  - split; [intros _; right; eexists; reflexivity | intros _; eexists; reflexivity].
  - destruct (py.startswith sub (String c s)).
    + split; [intros _; left; reflexivity | intros _; eexists; reflexivity].
    + split; [intros [? [=]] | intros [[=]|[? [=]]]].
Qed.

(** [sub] occurs in [s] exactly when it has a last occurrence there. *)
Lemma contains_rfind sub s :
  py.contains sub s = true <-> is_Some (py.rfind sub s).
Proof.
  unfold py.contains. rewrite bool_decide_eq_true.
  induction s as [|c s IH].
  - simpl. destruct (py.startswith sub ""); reflexivity.
  - rewrite find_is_Some, rfind_is_Some, IH. reflexivity.
Qed.

Lemma contains_false_rfind sub s :
  py.contains sub s = false <-> py.rfind sub s = None.
Proof.
  rewrite <- not_true_iff_false, contains_rfind, <- eq_None_not_Some.
  reflexivity.
Qed.

(** * The Category Page Parser on malformed pages *)

(** C8, what the code does on a page without pool table: it returns. *)
Lemma category_data_without_pool_table :
  (exists soup,
      BeautifulSoup (World := sample.no_table_page) "" = Ok soup
      /\ bs4.find_all_class "table" ["moduletable_draw"] soup = [])
  /\ data_utils.category_data (W := sample.no_table_page) "round"
     = Ok ([], "T", "C").
Proof. split; [eexists; split; reflexivity|reflexivity]. Qed.

(** C8, as the code has it.  Once the page is fetched and parsed into a
    tree, the Category Page Parser raises
    [IndexError] when the header block is absent and [ValueError] when the
    header text, without its last two characters, holds no [" - "];
    otherwise it returns, whatever the number of pool tables, and with the
    empty sequence when there is none. *)
Theorem category_data_failures `{W : World} (url content : string)
    (soup : bs4.node) :
  requests_get url = Ok content ->
  BeautifulSoup content = Ok soup ->
  let headers := bs4.find_all_class "div" ["newsheader"] soup in
  let tables := bs4.find_all_class "table" ["moduletable_draw"] soup in
  (headers = [] -> data_utils.category_data url = Raise IndexError)
  /\ (forall header rest,
        headers = header :: rest ->
        if py.contains " - " (py.str_slice_to_neg 2 (bs4.text header))
        then exists tournament category,
               data_utils.category_data url
               = Ok (tables, tournament, category)
        else data_utils.category_data url = Raise ValueError).
Proof.
  intros Hget Hparse headers tables. unfold data_utils.category_data.
  rewrite Hget. simpl. rewrite Hparse. simpl. fold headers. fold tables.
  split.
  - intros ->. reflexivity.
  - intros header rest ->. simpl. unfold py.rsplit1.
    destruct (py.contains " - " _) eqn:Hsep.
    + apply contains_rfind in Hsep as [i ->]. simpl. eauto.
    + apply contains_false_rfind in Hsep as ->. reflexivity.
Qed.

Lemma category_data_failures_witness :
  data_utils.category_data (W := sample.no_header_page) "round"
  = Raise IndexError.
Proof.
  apply (proj1 (category_data_failures (W := sample.no_header_page)
                  "round" "" _ eq_refl eq_refl)).
  reflexivity.
Defined.

(** * The Round URL Collector *)

Lemma getitem_attribute link key :
  bs4.getitem link key
  = match spec.attribute key link with
    | Some v => Ok v
    | None => Raise KeyError
    end.
Proof. destruct link; reflexivity. Qed.

(** The loop of [get_rounds_urls] appends, in order, the resolved
    reference of every link whose title marks a kata category. *)
Lemma rounds_loop (links : list bs4.node) :
  Forall (fun link => is_Some (spec.attribute "title" link)) links ->
  Forall (fun link => is_Some (spec.attribute "href" link))
    (List.filter
       (fun link =>
          from_option spec.kata_title false (spec.attribute "title" link))
       links) ->
  forall urls,
    py.for_each
      (fun urls link =>
         keep ← (title ← bs4.getitem link "title";
                 if py.contains "Male Kata" title then Ok true
                 else title' ← bs4.getitem link "title";
                      Ok (py.contains "Female Kata" title'));
         if keep : bool then
           href ← bs4.getitem link "href";
           Ok (urls ++ [data_utils.base_path +:+ href])
         else Ok urls)
      links urls
    = Ok (urls
          ++ (spec.resolve
                <$> List.filter
                      (fun link =>
                         from_option spec.kata_title false
                           (spec.attribute "title" link))
                      links)).
Proof.
  induction links as [|link links IH]; intros Htitles Hhrefs urls.
  - simpl. rewrite app_nil_r. reflexivity.
  - apply Forall_cons in Htitles as [[title Htitle] Htitles].
    cbn [py.for_each List.filter] in *.
    rewrite !getitem_attribute, Htitle in *.
    cbn [from_option mbind py.result_bind] in *.
    unfold spec.kata_title in *.
    destruct (py.contains "Male Kata" title) eqn:Hmale;
      [|destruct (py.contains "Female Kata" title) eqn:Hfemale];
      cbn [mbind py.result_bind orb] in *.
    1,2: apply Forall_cons in Hhrefs as [[href Hhref] Hhrefs];
         rewrite Hhref; cbn [mbind py.result_bind];
         rewrite IH by assumption;
         rewrite <- app_assoc; cbn [fmap list_fmap app];
         unfold spec.resolve at 2; rewrite Hhref; reflexivity.
    apply IH; assumption.
Qed.

(** C7, what the code does on an index page with a category link without
    title before the last three: it raises, where dropping the last three
    links, keeping the kata titles and prefixing the references gives one
    address. *)
Lemma untitled_candidate_raises :
  (exists soup,
      BeautifulSoup (World := more_samples.untitled_candidate) "" = Ok soup
      /\ spec.resolve <$> spec.kept_links soup
         = ["https://www.sportdata.org/wkf/set-online/a.php"])
  /\ data_utils.get_rounds_urls (W := more_samples.untitled_candidate) "event"
     = Raise KeyError.
Proof. split; [eexists; split; reflexivity|reflexivity]. Qed.

(** C7, as the code has it.  On a draws-index page, fetched and parsed,
    whose category links before the last three all carry a title and whose
    kept links carry a reference, the Round URL Collector returns, in
    document order and without removing duplicates, the links obtained from
    all [datalink2] links by dropping the last three, keeping those whose
    title contains "Male Kata" or "Female Kata", and prefixing the
    reference of each kept link with the base path. *)
Theorem get_rounds_urls_collects `{W : World} (draws_url content : string)
    (soup : bs4.node) :
  requests_get draws_url = Ok content ->
  BeautifulSoup content = Ok soup ->
  Forall (fun link => is_Some (spec.attribute "title" link))
    (spec.candidate_links soup) ->
  Forall (fun link => is_Some (spec.attribute "href" link))
    (spec.kept_links soup) ->
  data_utils.get_rounds_urls draws_url
  = Ok (spec.resolve <$> spec.kept_links soup).
Proof.
  intros Hget Hparse Htitles Hhrefs. unfold data_utils.get_rounds_urls.
  rewrite Hget. cbn [mbind py.result_bind].
  rewrite Hparse. cbn [mbind py.result_bind].
  apply (rounds_loop _ Htitles Hhrefs []).
Qed.

Lemma get_rounds_urls_collects_witness :
  data_utils.get_rounds_urls (W := sample.draws_index) "event"
  = Ok [ "https://www.sportdata.org/wkf/set-online/a.php";
         "https://www.sportdata.org/wkf/set-online/c.php" ].
Proof.
  apply (get_rounds_urls_collects (W := sample.draws_index) "event" "" _
           eq_refl eq_refl).
  - repeat constructor; eexists; reflexivity.
  - repeat constructor; eexists; reflexivity.
Defined.

(** * Cutting strings *)

Lemma app_String a s t : String a s +:+ t = String a (s +:+ t).
Proof. reflexivity. Qed.

Lemma app_empty_l s : "" +:+ s = s.
Proof. reflexivity. Qed.

Lemma app_assoc_str s t u : (s +:+ t) +:+ u = s +:+ t +:+ u.
Proof.
  induction s as [|a s IH]; [reflexivity|].
  rewrite !app_String, IH. reflexivity.
Qed.

Lemma len_app s t : py.len (s +:+ t) = py.len s + py.len t.
Proof.
  induction s as [|a s IH]; [reflexivity|].
  rewrite app_String. unfold py.len in *. simpl. rewrite IH. reflexivity.
Qed.

Lemma str_take_drop n s : py.str_take n s +:+ py.str_drop n s = s.
Proof.
  revert n. induction s as [|a s IH]; intros [|n]; try reflexivity.
  simpl. rewrite app_String, IH. reflexivity.
Qed.

Lemma str_take_app s t : py.str_take (py.len s) (s +:+ t) = s.
Proof.
  induction s as [|a s IH].
  - destruct t; reflexivity.
  - rewrite app_String. unfold py.len in *. simpl. rewrite IH. reflexivity.
Qed.

Lemma str_drop_app s t n :
  py.str_drop (py.len s + n) (s +:+ t) = py.str_drop n t.
Proof.
  induction s as [|a s IH]; [reflexivity|].
  rewrite app_String. unfold py.len in *. simpl. exact IH.
Qed.

Lemma str_drop_add n m s :
  py.str_drop (n + m) s = py.str_drop m (py.str_drop n s).
Proof.
  revert s. induction n as [|n IH]; intros s; [reflexivity|].
  destruct s as [|a s]; simpl; [destruct m; reflexivity|apply IH].
Qed.

Lemma len_str_drop n s : py.len (py.str_drop n s) = py.len s - n.
Proof.
  revert s. induction n as [|n IH]; intros s; simpl.
  - rewrite Nat.sub_0_r. reflexivity.
  - destruct s as [|a s]; [reflexivity|]. unfold py.len in *. simpl. apply IH.
Qed.

Lemma len_str_take n s : py.len (py.str_take n s) = n `min` py.len s.
Proof.
  revert s. induction n as [|n IH]; intros s; simpl; [reflexivity|].
  destruct s as [|a s]; [reflexivity|]. unfold py.len in *. simpl.
  rewrite IH. reflexivity.
Qed.

Lemma startswith_app sub t : py.startswith sub (sub +:+ t) = true.
Proof.
  induction sub as [|a sub IH]; [reflexivity|].
  rewrite app_String. simpl. rewrite bool_decide_eq_true_2 by reflexivity.
  exact IH.
Qed.

Lemma startswith_spec sub s :
  py.startswith sub s = true -> s = sub +:+ py.str_drop (py.len sub) s.
Proof.
  revert s. induction sub as [|a sub IH]; intros s; [reflexivity|].
  destruct s as [|b s]; simpl; [discriminate|].
  intros [->%bool_decide_eq_true Hs]%andb_true_iff.
  rewrite app_String. f_equal. apply IH, Hs.
Qed.

Lemma find_None_contains sub s :
  py.find sub s = None <-> py.contains sub s = false.
Proof.
  unfold py.contains. rewrite bool_decide_eq_false, <- eq_None_not_Some.
  reflexivity.
Qed.

(** What [rfind] returns is an occurrence, and the last one. *)
Lemma rfind_last sub s i :
  sub <> "" ->
  py.rfind sub s = Some i ->
  py.startswith sub (py.str_drop i s) = true
  /\ py.contains sub (py.str_drop 1 (py.str_drop i s)) = false.
Proof.
  intros Hsub. revert i. induction s as [|a s IH]; intros i.
  - simpl. destruct sub; [contradiction|discriminate].
  - change (py.rfind sub (String a s))
      with (match py.rfind sub s with
            | Some i => Some (S i)
            | None => if py.startswith sub (String a s) then Some 0 else None
            end).
    destruct (py.rfind sub s) as [j|] eqn:Hrfind.
    + intros [= <-]. apply (IH j eq_refl).
    + destruct (py.startswith sub (String a s)) eqn:Hstart; [|discriminate].
      intros [= <-]. split; [exact Hstart|].
      apply contains_false_rfind, Hrfind.
Qed.

(** The occurrence of [sub] after which there is no other is the one
    [rfind] returns. *)
Lemma rfind_unique sub pre tail :
  sub <> "" ->
  py.contains sub (py.str_drop 1 (sub +:+ tail)) = false ->
  py.rfind sub (pre +:+ sub +:+ tail) = Some (py.len pre).
Proof.
  intros Hsub Hlater. induction pre as [|a pre IH].
  - rewrite app_empty_l. destruct sub as [|b sub]; [contradiction|].
    rewrite app_String in *. simpl in Hlater.
    apply contains_false_rfind in Hlater.
    change (py.rfind (String b sub) (String b (sub +:+ tail)))
      with (match py.rfind (String b sub) (sub +:+ tail) with
            | Some i => Some (S i)
            | None =>
                if py.startswith (String b sub) (String b (sub +:+ tail))
                then Some 0 else None
            end).
    rewrite Hlater, <- app_String, startswith_app. reflexivity.
  - rewrite app_String.
    change (py.rfind sub (String a (pre +:+ sub +:+ tail)))
      with (match py.rfind sub (pre +:+ sub +:+ tail) with
            | Some i => Some (S i)
            | None =>
                if py.startswith sub (String a (pre +:+ sub +:+ tail))
                then Some 0 else None
            end).
    rewrite IH. reflexivity.
Qed.

Lemma rsplit1_found sub s i :
  sub <> "" ->
  py.rfind sub s = Some i ->
  exists before after,
    py.rsplit1 sub s = [before; after]
    /\ s = before +:+ sub +:+ after
    /\ py.contains sub (py.str_drop 1 (sub +:+ after)) = false.
Proof.
  intros Hsub Hrfind. unfold py.rsplit1. rewrite Hrfind.
  destruct (rfind_last sub s i Hsub Hrfind) as [Hstart Hlater].
  exists (py.str_take i s), (py.str_drop (i + py.len sub) s).
  apply startswith_spec in Hstart.
  rewrite str_drop_add, <- Hstart. split; [reflexivity|]. split.
  - symmetry. apply str_take_drop.
  - exact Hlater.
Qed.

Lemma rsplit1_unique sub pre tail :
  sub <> "" ->
  py.contains sub (py.str_drop 1 (sub +:+ tail)) = false ->
  py.rsplit1 sub (pre +:+ sub +:+ tail) = [pre; tail].
Proof.
  intros Hsub Hlater. unfold py.rsplit1.
  rewrite rfind_unique by assumption.
  rewrite str_take_app, str_drop_app.
  rewrite <- (Nat.add_0_r (py.len sub)), str_drop_app. reflexivity.
Qed.

Lemma rsplit1_absent sub s :
  py.contains sub s = false -> py.rsplit1 sub s = [s].
Proof.
  intros Habs%contains_false_rfind. unfold py.rsplit1. rewrite Habs.
  reflexivity.
Qed.

Lemma contains_app sub pre tail :
  py.contains sub (pre +:+ sub +:+ tail) = true.
Proof.
  unfold py.contains. apply bool_decide_eq_true.
  induction pre as [|a pre IH].
  - rewrite app_empty_l. destruct sub as [|b sub].
    + destruct tail; eexists; reflexivity.
    + rewrite app_String. apply find_is_Some. left.
      rewrite <- app_String. apply startswith_app.
  - rewrite app_String. apply find_is_Some. right. exact IH.
Qed.

(** [s[:-n]] removes the last [n] characters. *)
Lemma str_slice_to_neg_app s tail :
  py.str_slice_to_neg (py.len tail) (s +:+ tail) = s.
Proof.
  unfold py.str_slice_to_neg. rewrite len_app.
  replace (py.len s + py.len tail - py.len tail) with (py.len s) by lia.
  apply str_take_app.
Qed.

Lemma str_slice_to_neg_cut n s :
  exists tail,
    s = py.str_slice_to_neg n s +:+ tail /\ py.len tail = n `min` py.len s.
Proof.
  exists (py.str_drop (py.len s - n) s). split.
  - symmetry. apply str_take_drop.
  - rewrite len_str_drop. lia.
Qed.

(** * The header of a category page *)

(** C5, what the code does with two headers that contain [" - "] and end
    in neither punctuation nor white space: the last two characters are
    removed all the same, so the category of the first loses its end and
    the second has no separator left. *)
Lemma header_loses_two_characters :
  py.contains " - " "T - Kata" = true
  /\ spec.split_header "T - Kata" = ["T"; "Kata"]
  /\ data_utils.category_data (W := sample.one_page (sample.page "T - Kata" []))
       "round" = Ok ([], "T", "Ka")
  /\ py.contains " - " "T - C" = true
  /\ spec.split_header "T - C" = ["T"; "C"]
  /\ data_utils.category_data (W := sample.one_page (sample.page "T - C" []))
       "round" = Raise ValueError.
Proof. repeat split. Qed.

(** C5, as the code has it.  On a page fetched and parsed into a tree, the
    Category Page Parser removes the last two characters of the header
    text, whatever they are; when what is left contains
    [" - "], the category name is what follows its last [" - "] and the
    tournament name is what precedes it. *)
Theorem category_data_header `{W : World} (url content : string)
    (soup header : bs4.node) (rest : list bs4.node) :
  requests_get url = Ok content ->
  BeautifulSoup content = Ok soup ->
  bs4.find_all_class "div" ["newsheader"] soup = header :: rest ->
  let cut := py.str_slice_to_neg 2 (bs4.text header) in
  py.contains " - " cut = true ->
  (exists tail,
      bs4.text header = cut +:+ tail
      /\ py.len tail = 2 `min` py.len (bs4.text header))
  /\ exists tournament category,
      data_utils.category_data url
      = Ok (bs4.find_all_class "table" ["moduletable_draw"] soup,
            tournament, category)
      /\ cut = tournament +:+ " - " +:+ category
      /\ py.contains " - " ("- " +:+ category) = false.
Proof.
  intros Hget Hparse Hheaders cut Hsep. split.
  - apply str_slice_to_neg_cut.
  - apply contains_rfind in Hsep as [i Hi].
    destruct (rsplit1_found " - " cut i) as (before & after & Hsplit & Hcut & Hlast);
      [discriminate|exact Hi|].
    exists before, after. split; [|split; assumption].
    unfold data_utils.category_data. rewrite Hget. cbn [mbind py.result_bind].
    rewrite Hparse. cbn [mbind py.result_bind].
    rewrite Hheaders. cbn [py.getitem lookup list_lookup mbind py.result_bind].
    fold cut. rewrite Hsplit. reflexivity.
Qed.

Lemma category_data_header_witness :
  let W := sample.one_page
             (sample.page
                "Karate1 Premier League - Salzburg 2020 - Female Kata. " []) in
  exists tournament category,
    data_utils.category_data "round" = Ok ([], tournament, category)
    /\ "Karate1 Premier League - Salzburg 2020 - Female Kata"
       = tournament +:+ " - " +:+ category
    /\ py.contains " - " ("- " +:+ category) = false.
Proof.
  intros W.
  exact (proj2 (category_data_header (W := W) "round" "" _ _ _
                  eq_refl eq_refl eq_refl eq_refl)).
Defined.

(** * The two outcomes of the row loop body *)

Lemma guard_false kata (trs : list bs4.node) :
  (0 <? py.len kata) && (0 <? length trs) = false
  <-> kata = "" \/ trs = [].
Proof.
  destruct kata, trs; simpl; split; auto; try discriminate.
  - intros [?|?]; discriminate.
Qed.

Lemma guard_true kata (trs : list bs4.node) :
  (0 <? py.len kata) && (0 <? length trs) = true
  <-> kata <> "" /\ is_Some (trs !! 0).
Proof.
  destruct kata, trs; simpl; split; try discriminate; try tauto.
  - intros [_ [? [=]]].
  - intros _. split; [discriminate|eexists; reflexivity].
Qed.

(** The two ways in which the body of the row loop returns. *)
Lemma performance_body_Ok tournament category pool data row data' :
  data_utils.performance_body tournament category pool data row = Ok data'
  <-> (skips row /\ data' = data)
      \/ exists rec,
           emits tournament category pool row rec /\ data' = data ++ [rec].
Proof.
  unfold data_utils.performance_body. split.
  - intros (b & Hb%getitem_Ok & H)%bind_Ok.
    apply bind_Ok in H as (name & Hname%getitem_Ok & H).
    apply bind_Ok in H as (segment & Hsegment%getitem_last_Ok & H).
    apply bind_Ok in H as (cell & Hcell%getitem_Ok & H).
    destruct (_ && _) eqn:Hguard.
    + right. apply guard_true in Hguard as [Hkata _].
      unfold py.range in H. cbn [seq Nat.sub py.comprehension] in H.
      apply bind_Ok in H as (rows & Hrows & H).
      apply bind_Ok in Hrows as (tec & (tr0 & Htr0%getitem_Ok & [= <-])%bind_Ok & Hrows).
      apply bind_Ok in Hrows as (rows' & Hrows' & [= <-]).
      apply bind_Ok in Hrows' as (ath & (tr1 & Htr1%getitem_Ok & [= <-])%bind_Ok & [= <-]).
      cbn [py.unpack2 mbind py.result_bind] in H.
      apply bind_Ok in H as (tec_last & Htl%getitem_last_Ok & H).
      apply bind_Ok in H as (ts & Hts & H).
      apply bind_Ok in H as (ath_last & Hal%getitem_last_Ok & H).
      apply bind_Ok in H as (as' & Has & H).
      apply bind_Ok in H as (last_cell & Hlc%getitem_last_Ok & H).
      apply bind_Ok in H as (score & Hscore & H).
      apply bind_Ok in H as (tg & Htg & H).
      apply bind_Ok in H as (ag & Hag & [= <-]).
      eexists. split; [|reflexivity].
      eapply emits_record; eassumption.
    + left. injection H as <-. split; [|reflexivity].
      apply guard_false in Hguard. split; [eexists; exact Hb|].
      exists cell. split; assumption.
  - intros [[[[b Hb] (cell & Hcell & Hguard)] ->] | (rec & Hemits & ->)].
    + rewrite (getitem_lookup _ _ _ Hb). cbn [mbind py.result_bind].
      assert (Hname : exists name,
                 py.getitem (py.rsplit1 " (" (bs4.text b)) 0 = Ok name)
        by (unfold py.rsplit1; destruct (py.rfind _ _); eexists; reflexivity).
      destruct Hname as [name ->]. cbn [mbind py.result_bind].
      assert (Hseg : exists segment,
                 py.getitem_last (py.rsplit1 "," (bs4.text b)) = Ok segment)
        by (unfold py.rsplit1; destruct (py.rfind _ _); eexists; reflexivity).
      destruct Hseg as [segment ->]. cbn [mbind py.result_bind].
      rewrite (getitem_lookup _ _ _ Hcell). cbn [mbind py.result_bind].
      apply guard_false in Hguard. rewrite Hguard. reflexivity.
    + destruct Hemits as [b name segment cell tr0 tr1 tec_last ath_last
                            last_cell ts as' score tg ag Hb Hname Hsegment
                            Hcell Hkata Htr0 Htr1 Htl Hts Hal Has Hlc Hscore
                            Htg Hag].
      rewrite (getitem_lookup _ _ _ Hb). cbn [mbind py.result_bind].
      rewrite (getitem_lookup _ _ _ Hname). cbn [mbind py.result_bind].
      rewrite (proj2 (getitem_last_Ok _ _) Hsegment).
      cbn [mbind py.result_bind].
      rewrite (getitem_lookup _ _ _ Hcell). cbn [mbind py.result_bind].
      rewrite (proj2 (guard_true _ _) (conj Hkata (ex_intro _ _ Htr0))).
      unfold py.range. cbn [seq Nat.sub py.comprehension].
      rewrite (getitem_lookup _ _ _ Htr0), (getitem_lookup _ _ _ Htr1).
      cbn [py.unpack2 mbind py.result_bind].
      rewrite (proj2 (getitem_last_Ok _ _) Htl). cbn [mbind py.result_bind].
      rewrite Hts. cbn [mbind py.result_bind].
      rewrite (proj2 (getitem_last_Ok _ _) Hal). cbn [mbind py.result_bind].
      rewrite Has. cbn [mbind py.result_bind].
      rewrite (proj2 (getitem_last_Ok _ _) Hlc). cbn [mbind py.result_bind].
      rewrite Hscore. cbn [mbind py.result_bind].
      rewrite Htg. cbn [mbind py.result_bind].
      rewrite Hag. reflexivity.
Qed.

(** * Omitted rows *)

(** The loop over the rows of a table visits the styled rows in order. *)
Lemma table_body_rows tournament category data table first_row pool :
  bs4.find_all "tr" table !! 0 = Some first_row ->
  py.split ":" (bs4.text first_row) !! 1 = Some pool ->
  data_utils.table_body tournament category data table
  = py.for_each (data_utils.performance_body tournament category pool)
      (bs4.find_all_class "tr" ["dctabrowwhite"; "dctabrowgreen"] table) data.
Proof.
  intros Hrow Hpool. unfold data_utils.table_body.
  rewrite (getitem_lookup _ _ _ Hrow). cbn [mbind py.result_bind].
  rewrite (getitem_lookup _ _ _ Hpool). cbn [mbind py.result_bind].
  apply for_each_range.
Qed.

(** C1, what the code does on two incomplete rows: a row with one nested
    sub-row only, and a row with an empty kata label but no bold identity.
    Both raise. *)
Lemma incomplete_rows_that_raise :
  spec.incomplete sample.single_sub_row
  /\ data_utils.performance_body "T" "C" "1" [] sample.single_sub_row
     = Raise IndexError
  /\ spec.incomplete sample.no_bold_row
  /\ data_utils.performance_body "T" "C" "1" [] sample.no_bold_row
     = Raise IndexError.
Proof.
  split; [right; unfold spec.lacks_grade_rows; vm_compute; lia|].
  split; [reflexivity|].
  split; [left; reflexivity|reflexivity].
Qed.

(** C1, as the code has it.  A result row with a bold identity and at least
    three cells is passed over, without a record and without an error,
    exactly when its kata label is empty or it has no nested sub-row at
    all; leaving such a row out of the rows of a table changes nothing to
    what the loop produces for the others. *)
Theorem omitted_rows (tournament category pool : string) (row : bs4.node) :
  is_Some (bs4.find_all "b" row !! 0) ->
  is_Some (bs4.find_all "td" row !! 2) ->
  (forall data,
      data_utils.performance_body tournament category pool data row = Ok data
      <-> spec.kata_label row = Some "" \/ bs4.find_all "tr" row = [])
  /\ (spec.kata_label row = Some "" \/ bs4.find_all "tr" row = [] ->
      forall before after data,
        py.for_each (data_utils.performance_body tournament category pool)
          (before ++ row :: after) data
        = py.for_each (data_utils.performance_body tournament category pool)
            (before ++ after) data).
Proof.
  intros Hb [cell Hcell].
  assert (Hskip : spec.kata_label row = Some "" \/ bs4.find_all "tr" row = []
                  <-> skips row).
  { unfold skips, spec.kata_label. rewrite Hcell. cbn [fmap option_fmap option_map].
    split.
    - intros [[= Hkata]|Htr]; (split; [exact Hb|exists cell; auto]).
    - intros [_ (cell' & [= <-] & [Hkata|Htr])]; [left; f_equal; exact Hkata|right; exact Htr]. }
  assert (Hbody : forall data,
             data_utils.performance_body tournament category pool data row
             = Ok data <-> skips row).
  { intros data. rewrite performance_body_Ok. split.
    - intros [[Hs _]|(rec & _ & Hrec)]; [exact Hs|].
      apply (f_equal length) in Hrec. rewrite length_app in Hrec.
      simpl in Hrec. lia.
    - intros Hs. left. split; [exact Hs|reflexivity]. }
  split.
  - intros data. rewrite Hbody, Hskip. reflexivity.
  - intros Hcond%Hskip before after data.
    rewrite !for_each_app. destruct (py.for_each _ before data) as [acc|e];
      [|reflexivity].
    cbn [mbind py.result_bind py.for_each].
    rewrite (proj2 (Hbody acc) Hcond). reflexivity.
Qed.

Lemma omitted_rows_witness :
  py.for_each (data_utils.performance_body "T" "C" "1")
    ([sample.full_row] ++ sample.no_show_row :: [sample.full_row]) []
  = py.for_each (data_utils.performance_body "T" "C" "1")
      ([sample.full_row] ++ [sample.full_row]) [].
Proof.
  apply (proj2 (omitted_rows "T" "C" "1" sample.no_show_row
                  (ex_intro _ _ eq_refl) (ex_intro _ _ eq_refl))).
  left. reflexivity.
Defined.

(** * The fields of a record *)

Lemma dom_dict_of (pairs : list (string * py.value)) :
  dom (py.dict_of pairs) = list_to_set pairs.*1.
Proof.
  unfold py.dict_of.
  enough (Hgen : forall d : dict,
             dom (fold_left (fun d kv => <[kv.1 := kv.2]> d) pairs d)
             = list_to_set pairs.*1 ∪ dom d).
  { rewrite Hgen, dom_empty_L. set_solver. }
  induction pairs as [|[k v] pairs IH]; intros d; simpl.
  - set_solver.
  - rewrite IH, dom_insert_L. set_solver.
Qed.

Lemma dom_update (d d' : dict) : dom (py.update d d') = dom d' ∪ dom d.
Proof. unfold py.update. apply dom_union_L. Qed.

Lemma grade_names_numbered prefix n :
  data_utils.grade_names prefix n = spec.numbered prefix n.
Proof.
  unfold data_utils.grade_names, spec.numbered, py.range.
  rewrite Nat.sub_0_r, <- fmap_S_seq, <- list_fmap_compose.
  apply list_fmap_ext. intros _ i _. simpl. rewrite Nat.add_1_r.
  reflexivity.
Qed.

Lemma length_numbered prefix n : length (spec.numbered prefix n) = n.
Proof. unfold spec.numbered. rewrite length_fmap. apply length_seq. Qed.

Lemma dom_grades prefix (grades : list py.pyfloat) :
  dom (py.dict_of
         (zip (data_utils.grade_names prefix (length grades))
              (py.Float <$> grades)))
  = list_to_set (spec.numbered prefix (length grades)).
Proof.
  rewrite dom_dict_of, grade_names_numbered, fst_zip; [reflexivity|].
  rewrite length_numbered, length_fmap. reflexivity.
Qed.

(** The keys of a record are the six text fields, one field per grade and
    the score. *)
Lemma dom_perf_record tournament category pool name nationality kata
    technical_grades athletic_grades total_score :
  dom (data_utils.perf_record tournament category pool name nationality kata
         technical_grades athletic_grades total_score)
  = spec.fields (length technical_grades) (length athletic_grades).
Proof.
  unfold data_utils.perf_record, spec.fields.
  rewrite !dom_update, !dom_grades, dom_dict_of, !dom_insert_L, dom_empty_L.
  rewrite !list_to_set_app_L. cbn [fmap list_fmap fst list_to_set].
  set_solver.
Qed.

Lemma elem_of_numbered prefix n key :
  key ∈ spec.numbered prefix n
  <-> exists i, 1 <= i <= n /\ key = prefix +:+ py.str i.
Proof.
  unfold spec.numbered. rewrite list_elem_of_fmap. split.
  - intros (i & -> & Hi%elem_of_seq). exists i. split; [lia|reflexivity].
  - intros (i & Hi & ->). exists i. split; [reflexivity|].
    apply elem_of_seq. lia.
Qed.

Lemma NoDup_numbered prefix n : NoDup (spec.numbered prefix n).
Proof.
  unfold spec.numbered. apply NoDup_fmap_2; [|apply NoDup_seq].
  intros i j Hij. apply (inj (String.app prefix)) in Hij.
  apply (inj pretty) in Hij. exact Hij.
Qed.

(** The field names are pairwise distinct: a record with [n] technical and
    [m] athletic grades has [7 + n + m] fields. *)
Lemma size_fields n m : size (spec.fields n m) = 7 + n + m.
Proof.
  unfold spec.fields. rewrite size_list_to_set.
  - rewrite !length_app, !length_numbered. simpl. lia.
  - apply NoDup_app. split; [|split].
    + apply (bool_decide_unpack _). vm_compute. exact I.
    + intros key Hbase [Hkey|[Hkey|Hkey]%elem_of_app]%elem_of_app.
      * apply elem_of_numbered in Hkey as (i & _ & ->).
        rewrite !app_String, app_empty_l in Hbase.
        repeat (apply elem_of_cons in Hbase as [[=]|Hbase]).
        inversion Hbase.
      * apply elem_of_numbered in Hkey as (i & _ & ->).
        rewrite !app_String, app_empty_l in Hbase.
        repeat (apply elem_of_cons in Hbase as [[=]|Hbase]).
        inversion Hbase.
      * apply list_elem_of_singleton in Hkey as ->.
        repeat (apply elem_of_cons in Hbase as [[=]|Hbase]).
        inversion Hbase.
    + apply NoDup_app. split; [apply NoDup_numbered|split].
      * intros key (i & _ & ->)%elem_of_numbered
          [(j & _ & Heq)%elem_of_numbered|Hkey%list_elem_of_singleton]%elem_of_app.
        -- rewrite !app_String, !app_empty_l in Heq. discriminate.
        -- rewrite !app_String, !app_empty_l in Hkey. discriminate.
      * apply NoDup_app. split; [apply NoDup_numbered|split].
        -- intros key (i & _ & ->)%elem_of_numbered Hkey%list_elem_of_singleton.
           rewrite !app_String, !app_empty_l in Hkey. discriminate.
        -- apply NoDup_singleton.
Qed.

Lemma not_elem_of_grades prefix (grades : list py.pyfloat) key :
  (forall i, key <> prefix +:+ py.str i) ->
  py.dict_of
    (zip (data_utils.grade_names prefix (length grades)) (py.Float <$> grades))
    !! key = None.
Proof.
  intros Hkey. apply not_elem_of_dom. rewrite dom_grades, elem_of_list_to_set.
  intros (i & _ & ->)%elem_of_numbered. apply (Hkey i). reflexivity.
Qed.

(** The text fields of a record are the ones set at lines 92-98. *)
Lemma lookup_perf_record_text tournament category pool name nationality kata
    technical_grades athletic_grades total_score key :
  key ∈ ["Tournament"; "Category"; "Pool"; "Name"; "Nationality"; "Kata"] ->
  data_utils.perf_record tournament category pool name nationality kata
    technical_grades athletic_grades total_score !! key
  = (<["Kata" := py.Str kata]>
     (<["Nationality" := py.Str nationality]>
     (<["Name" := py.Str name]>
     (<["Pool" := py.Str pool]>
     (<["Category" := py.Str category]>
     (<["Tournament" := py.Str tournament]> (∅ : dict)))))))
      !! key.
Proof.
  intros Hkey. unfold data_utils.perf_record, py.update.
  rewrite !lookup_union_r; [reflexivity| | |].
  - apply not_elem_of_grades. intros i ->.
    rewrite !app_String, app_empty_l in Hkey.
    repeat (apply elem_of_cons in Hkey as [[=]|Hkey]). inversion Hkey.
  - apply not_elem_of_grades. intros i ->.
    rewrite !app_String, app_empty_l in Hkey.
    repeat (apply elem_of_cons in Hkey as [[=]|Hkey]). inversion Hkey.
  - apply not_elem_of_dom. rewrite dom_dict_of. cbn [fmap list_fmap fst].
    rewrite elem_of_list_to_set, list_elem_of_singleton. intros ->.
    repeat (apply elem_of_cons in Hkey as [[=]|Hkey]). inversion Hkey.
Qed.


Lemma length_slice {A} (xs : list A) :
  length (py.slice 1 8 xs) = 7 `min` (length xs - 1).
Proof. unfold py.slice. rewrite length_drop, length_take. lia. Qed.

(** The shape of a record: its kata is not empty and it has one field per
    cell between the first and the ninth of each sub-row. *)
Lemma emits_shape tournament category pool row rec :
  emits tournament category pool row rec ->
  exists tr0 tr1 kata,
    bs4.find_all "tr" row !! 0 = Some tr0
    /\ bs4.find_all "tr" row !! 1 = Some tr1
    /\ dom rec = spec.fields (7 `min` (length (bs4.find_all "td" tr0) - 1))
                             (7 `min` (length (bs4.find_all "td" tr1) - 1))
    /\ rec !! "Kata" = Some (py.Str kata)
    /\ kata <> "".
Proof.
  intros [b name segment cell tr0 tr1 tec_last ath_last last_cell ts as'
            score tg ag Hb Hname Hsegment Hcell Hkata Htr0 Htr1 Htl Hts Hal
            Has Hlc Hscore Htg Hag].
  exists tr0, tr1, (bs4.text cell). repeat split; try assumption.
  - rewrite dom_perf_record.
    apply comprehension_length in Htg, Hag.
    rewrite length_fmap, length_slice in Htg, Hag. rewrite Htg, Hag.
    reflexivity.
  - rewrite lookup_perf_record_text by (apply (bool_decide_unpack _); reflexivity).
    apply lookup_insert_eq.
Qed.

Lemma performance_body_emits tournament category pool data row rec :
  data_utils.performance_body tournament category pool data row
  = Ok (data ++ [rec])
  -> emits tournament category pool row rec.
Proof.
  intros [[_ Hsame]|(rec' & Hemits & Heq)]%performance_body_Ok.
  - apply (f_equal length) in Hsame. rewrite length_app in Hsame.
    simpl in Hsame. lia.
  - apply app_inj_tail in Heq as [_ ->]. exact Hemits.
Qed.

Lemma emits_at_most_seven tournament category pool row rec :
  emits tournament category pool row rec -> record_of_at_most_seven rec.
Proof.
  intros (tr0 & tr1 & kata & _ & _ & Hdom & Hkata & Hne)%emits_shape.
  eexists _, _, kata. repeat split; [| |exact Hdom| |exact Hkata|exact Hne].
  - lia.
  - lia.
  - rewrite Hdom. apply size_fields.
Qed.

Lemma get_round_performances_records `{W : World} url data :
  data_utils.get_round_performances url = Ok data ->
  Forall record_of_at_most_seven data.
Proof.
  unfold data_utils.get_round_performances.
  intros ([[tables tournament] category] & _ & Hloop)%bind_Ok.
  revert Hloop. apply for_each_invariant; [|constructor].
  intros acc table acc' Hacc. unfold data_utils.table_body.
  intros (first_row & _ & (pool & _ & Hrows)%bind_Ok)%bind_Ok.
  revert Hrows. apply for_each_invariant; [|exact Hacc].
  clear. intros acc k acc' Hacc (row & _ & Hbody)%bind_Ok.
  apply performance_body_Ok in Hbody as [[_ ->]|(rec & Hemits & ->)];
    [exact Hacc|].
  apply Forall_app. split; [exact Hacc|].
  constructor; [|constructor]. eapply emits_at_most_seven, Hemits.
Qed.

(** C2, what the code does on a row whose sub-rows hold three cells: the
    record has two technical and two athletic grade fields. *)
Lemma short_row_has_two_grades :
  exists rec,
    data_utils.performance_body "T" "C" "1" [] sample.short_row = Ok [rec]
    /\ dom rec = spec.fields 2 2
    /\ rec !! "TEC3" = None
    /\ rec !! "ATH7" = None.
Proof. eexists. repeat split. Qed.

(** C2, as the code has it.  An emitted record has a non-empty kata and,
    for each of the two sub-rows, one grade field per cell from the second
    to the eighth: [min 7 (c - 1)] fields for a sub-row of [c] cells, named
    from 1 on, so seven of them when the sub-row has at least eight cells
    and fewer otherwise.  On every page, every record of the result has at
    most seven technical and seven athletic grade fields, all fields
    distinct, and a non-empty kata. *)
Theorem record_fields `{W : World} :
  (forall tournament category pool data row rec,
      data_utils.performance_body tournament category pool data row
      = Ok (data ++ [rec]) ->
      exists tr0 tr1 kata,
        bs4.find_all "tr" row !! 0 = Some tr0
        /\ bs4.find_all "tr" row !! 1 = Some tr1
        /\ dom rec
           = spec.fields (7 `min` (length (bs4.find_all "td" tr0) - 1))
                         (7 `min` (length (bs4.find_all "td" tr1) - 1))
        /\ rec !! "Kata" = Some (py.Str kata)
        /\ kata <> "")
  /\ (forall url data,
        data_utils.get_round_performances url = Ok data ->
        Forall record_of_at_most_seven data).
Proof.
  split.
  - intros tournament category pool data row rec Hbody.
    eapply emits_shape, performance_body_emits, Hbody.
  - apply @get_round_performances_records.
Qed.

Lemma record_fields_witness :
  exists tr0 tr1 kata,
    bs4.find_all "tr" sample.full_row !! 0 = Some tr0
    /\ bs4.find_all "tr" sample.full_row !! 1 = Some tr1
    /\ dom sample.full_record
       = spec.fields (7 `min` (length (bs4.find_all "td" tr0) - 1))
                     (7 `min` (length (bs4.find_all "td" tr1) - 1))
    /\ sample.full_record !! "Kata" = Some (py.Str kata)
    /\ kata <> "".
Proof.
  apply (proj1 (record_fields (W := sample.empty_event))
           "T" "C" "1" [] sample.full_row sample.full_record).
  vm_compute. reflexivity.
Defined.

(** * What [float] accepts *)

Lemma replace_comma_free s : comma_free s = true -> py.replace "," "." s = s.
Proof.
  induction s as [|c s IH]; [reflexivity|]. simpl.
  intros [Hc%negb_true_iff Hs]%andb_true_iff.
  rewrite Hc, IH by exact Hs. reflexivity.
Qed.

Lemma comma_free_cons c s :
  c <> ","%char -> comma_free s = true -> comma_free (String c s) = true.
Proof.
  intros Hc Hs. simpl. rewrite Hs, bool_decide_eq_false_2 by exact Hc.
  reflexivity.
Qed.

Lemma digit_not_comma c d : py.is_digit c = Some d -> c <> ","%char.
Proof. intros Hd ->. discriminate Hd. Qed.

Lemma space_not_comma c : py.is_space c = true -> c <> ","%char.
Proof. intros Hs ->. discriminate Hs. Qed.

Lemma comma_free_lstrip s :
  comma_free (py.lstrip s) = true -> comma_free s = true.
Proof.
  induction s as [|c s IH]; [reflexivity|]. simpl py.lstrip.
  destruct (py.is_space c) eqn:Hc; [|exact id].
  intros Hs. apply comma_free_cons; [apply space_not_comma, Hc|apply IH, Hs].
Qed.

Lemma comma_free_rstrip s :
  comma_free (py.rstrip s) = true -> comma_free s = true.
Proof.
  induction s as [|c s IH]; [reflexivity|]. simpl py.rstrip.
  destruct (py.rstrip s) as [|c' r] eqn:Hr.
  - destruct (py.is_space c) eqn:Hc.
    + intros _. apply comma_free_cons; [apply space_not_comma, Hc|].
      apply IH. reflexivity.
    + simpl. intros [Hc' _]%andb_true_iff. rewrite Hc'. apply IH. reflexivity.
  - simpl. intros [Hc' Hs]%andb_true_iff. rewrite Hc'. apply IH, Hs.
Qed.

Lemma comma_free_sign s neg body :
  py.sign s = (neg, body) -> comma_free body = true -> comma_free s = true.
Proof.
  unfold py.sign. destruct s as [|c s]; [intros [= _ <-]; exact id|].
  destruct (bool_decide (c = "+"%char)) eqn:Hplus.
  { apply bool_decide_eq_true in Hplus as ->. intros [= _ <-]. exact id. }
  destruct (bool_decide (c = "-"%char)) eqn:Hminus.
  { apply bool_decide_eq_true in Hminus as ->. intros [= _ <-]. exact id. }
  apply bool_decide_eq_false in Hplus, Hminus.
  destruct c as [[] [] [] [] [] [] [] []];
    try (intros [= _ <-]; exact id); congruence.
Qed.

Lemma comma_free_lower s : comma_free (py.lower s) = true -> comma_free s = true.
Proof.
  induction s as [|c s IH]; [reflexivity|]. simpl.
  intros [Hc Hs]%andb_true_iff. rewrite (IH Hs), andb_true_r.
  destruct (bool_decide (c = ","%char)) eqn:Hcomma; [|reflexivity].
  apply bool_decide_eq_true in Hcomma as ->. discriminate Hc.
Qed.

Lemma digits_tail_eq c s :
  py.digits_tail (String c s)
  = match py.is_digit c with
    | Some d => let '(ds, r) := py.digits_tail s in (d :: ds, r)
    | None =>
        if bool_decide (c = "_"%char) then
          match s with
          | String c' s'' =>
              match py.is_digit c' with
              | Some d => let '(ds, r) := py.digits_tail s'' in (d :: ds, r)
              | None => ([], String c s)
              end
          | "" => ([], String c s)
          end
        else ([], String c s)
    end.
Proof. reflexivity. Qed.

Lemma comma_free_digits_tail s ds r :
  py.digits_tail s = (ds, r) -> comma_free r = true -> comma_free s = true.
Proof.
  remember (py.len s) as n eqn:Hn. assert (Hlen : py.len s <= n) by lia.
  clear Hn. revert s ds r Hlen.
  induction n as [|n IH]; intros [|c s] ds r Hlen;
    try (intros [= _ <-]; exact id); [cbn in Hlen; lia|].
  assert (Hs : py.len s <= n) by (cbn in Hlen; unfold py.len; lia).
  rewrite digits_tail_eq. destruct (py.is_digit c) as [d|] eqn:Hd.
  - destruct (py.digits_tail s) as [ds' r'] eqn:Htail. intros [= _ <-] Hr.
    apply comma_free_cons; [eapply digit_not_comma, Hd|].
    eapply IH; eassumption.
  - case_bool_decide as Hc; [subst c|intros [= _ <-]; exact id].
    destruct s as [|c' s']; [intros [= _ <-]; exact id|].
    destruct (py.is_digit c') as [d|] eqn:Hd'; [|intros [= _ <-]; exact id].
    destruct (py.digits_tail s') as [ds' r'] eqn:Htail. intros [= _ <-] Hr.
    apply comma_free_cons; [discriminate|].
    apply comma_free_cons; [eapply digit_not_comma, Hd'|].
    eapply (IH s'); [cbn in Hs; unfold py.len; lia|exact Htail|exact Hr].
Qed.

Lemma comma_free_digitpart s ds r :
  py.digitpart s = Some (ds, r) -> comma_free r = true -> comma_free s = true.
Proof.
  unfold py.digitpart. destruct s as [|c s]; [discriminate|].
  destruct (py.is_digit c) as [d|] eqn:Hd; [|discriminate].
  destruct (py.digits_tail s) as [ds' r'] eqn:Htail. intros [= _ <-] Hr.
  apply comma_free_cons; [eapply digit_not_comma, Hd|].
  eapply comma_free_digits_tail; eassumption.
Qed.

Lemma comma_free_number s ip fp r :
  py.number s = Some (ip, fp, r) -> comma_free r = true -> comma_free s = true.
Proof.
  unfold py.number. destruct (py.digitpart s) as [[ip' r1]|] eqn:Hint.
  - intros Hnum Hr. eapply comma_free_digitpart; [exact Hint|].
    destruct r1 as [|c r1']; [injection Hnum as _ _ <-; exact Hr|].
    destruct (decide (c = "."%char)) as [->|Hc].
    + apply comma_free_cons; [discriminate|].
      destruct (py.digitpart r1') as [[fp' r2]|] eqn:Hfrac.
      * injection Hnum as _ _ <-. eapply comma_free_digitpart; eassumption.
      * injection Hnum as _ _ <-. exact Hr.
    + destruct c as [[] [] [] [] [] [] [] []];
        try (injection Hnum as _ _ <-; exact Hr). contradiction.
  - destruct s as [|c s']; [discriminate|].
    destruct (decide (c = "."%char)) as [->|Hc].
    + destruct (py.digitpart s') as [[fp' r2]|] eqn:Hfrac; [|discriminate].
      intros [= _ _ <-] Hr. apply comma_free_cons; [discriminate|].
      eapply comma_free_digitpart; eassumption.
    + destruct c as [[] [] [] [] [] [] [] []]; try discriminate. contradiction.
Qed.

Lemma comma_free_exponent r e : py.exponent r = Some e -> comma_free r = true.
Proof.
  unfold py.exponent. destruct r as [|c r]; [reflexivity|].
  destruct (bool_decide (c = "e"%char) || bool_decide (c = "E"%char)) eqn:Hc;
    [|discriminate].
  destruct (py.sign r) as [neg r'] eqn:Hsign.
  destruct (py.digitpart r') as [[ds [|]]|] eqn:Hdigits; try discriminate.
  intros _. apply comma_free_cons.
  - intros ->. discriminate Hc.
  - eapply comma_free_sign; [exact Hsign|].
    eapply comma_free_digitpart; [exact Hdigits|reflexivity].
Qed.

(** [float] accepts no text that holds a comma. *)
Lemma float_comma_free s x : py.float s = Ok x -> comma_free s = true.
Proof.
  unfold py.float. destruct (py.sign (py.strip s)) as [neg body] eqn:Hsign.
  intros Hfloat.
  apply comma_free_lstrip, comma_free_rstrip.
  eapply comma_free_sign; [exact Hsign|].
  destruct (bool_decide (py.lower body = "inf")
            || bool_decide (py.lower body = "infinity")) eqn:Hinf.
  { apply comma_free_lower.
    apply orb_true_iff in Hinf as [->%bool_decide_eq_true| ->%bool_decide_eq_true];
      reflexivity. }
  destruct (bool_decide (py.lower body = "nan")) eqn:Hnan.
  { apply comma_free_lower. apply bool_decide_eq_true in Hnan as ->.
    reflexivity. }
  destruct (py.number body) as [[[ip fp] r]|] eqn:Hnum; [|discriminate].
  destruct (py.exponent r) as [e|] eqn:Hexp; [|discriminate].
  eapply comma_free_number; [exact Hnum|].
  eapply comma_free_exponent, Hexp.
Qed.

Lemma float_raises_ValueError s e : py.float s = Raise e -> e = ValueError.
Proof.
  unfold py.float. destruct (py.sign (py.strip s)) as [neg body].
  destruct (_ || _); [discriminate|].
  destruct (bool_decide _); [discriminate|].
  destruct (py.number body) as [[[ip fp] r]|]; [|congruence].
  destruct (py.exponent r); [discriminate|congruence].
Qed.

(** On a text that [float] accepts, replacing commas changes nothing. *)
Lemma to_grade_float s x :
  py.float s = Ok x -> data_utils.to_grade s = Ok x.
Proof.
  intros Hfloat. unfold data_utils.to_grade.
  rewrite replace_comma_free by (eapply float_comma_free, Hfloat).
  exact Hfloat.
Qed.

(** * The final score *)





(** * Name and nationality *)

Lemma contains_cons sub c s :
  py.contains sub (String c s)
  = py.startswith sub (String c s) || py.contains sub s.
Proof.
  apply eq_true_iff_eq. rewrite orb_true_iff. unfold py.contains.
  rewrite !bool_decide_eq_true. apply find_is_Some.
Qed.

Lemma contains_char_app a s t :
  py.contains (String a "") (s +:+ t)
  = py.contains (String a "") s || py.contains (String a "") t.
Proof.
  induction s as [|c s IH]; [reflexivity|].
  rewrite app_String, !contains_cons, IH. simpl.
  rewrite !andb_true_r. apply orb_assoc.
Qed.

Lemma lookup_name tournament category pool name nationality kata
    technical_grades athletic_grades total_score :
  data_utils.perf_record tournament category pool name nationality kata
    technical_grades athletic_grades total_score !! "Name"
  = Some (py.Str name).
Proof.
  rewrite lookup_perf_record_text by (apply (bool_decide_unpack _); reflexivity).
  reflexivity.
Qed.

Lemma lookup_nationality tournament category pool name nationality kata
    technical_grades athletic_grades total_score :
  data_utils.perf_record tournament category pool name nationality kata
    technical_grades athletic_grades total_score !! "Nationality"
  = Some (py.Str nationality).
Proof.
  rewrite lookup_perf_record_text by (apply (bool_decide_unpack _); reflexivity).
  reflexivity.
Qed.

(** C6, what the code does on the identity
    ["Ann (Jr) Lee (Paris, FRA)"]: the name is cut at the last [" ("], not
    at the first, and the nationality keeps the space that follows the
    comma. *)
Lemma identity_cut_at_last_parenthesis :
  bs4.text <$> bs4.find_all "b" sample.spaced_identity_row !! 0
  = Some (spec.identity "Ann (Jr) Lee" "Paris" "FRA")
  /\ spec.before_first " (" (spec.identity "Ann (Jr) Lee" "Paris" "FRA")
     = "Ann"
  /\ exists rec,
      data_utils.performance_body "T" "C" "1" [] sample.spaced_identity_row
      = Ok [rec]
      /\ rec !! "Name" = Some (py.Str "Ann (Jr) Lee")
      /\ rec !! "Nationality" = Some (py.Str " FRA").
Proof.
  split; [reflexivity|]. split; [reflexivity|].
  eexists. split; [reflexivity|]. split; reflexivity.
Qed.

(** C6, as the code has it.  For a row that yields a record and whose bold
    identity text is ["<name> (<city>, <country>)"]: the name field is the
    part of the text before its last [" ("], which is [<name>] when no
    [" ("] occurs after that of the form; the nationality field is the
    last comma-delimited segment without its final character, which is
    the country preceded by the space that follows the comma. *)
Theorem identity_fields (tournament category pool : string)
    (data : list dict) (row : bs4.node) (rec : dict) (b : bs4.node)
    (name city country : string) :
  data_utils.performance_body tournament category pool data row
  = Ok (data ++ [rec]) ->
  bs4.find_all "b" row !! 0 = Some b ->
  bs4.text b = spec.identity name city country ->
  (exists before after,
      rec !! "Name" = Some (py.Str before)
      /\ bs4.text b = before +:+ " (" +:+ after
      /\ py.contains " (" ("(" +:+ after) = false)
  /\ (py.contains " (" (city +:+ ", " +:+ country +:+ ")") = false ->
      rec !! "Name" = Some (py.Str name))
  /\ (py.contains "," country = false ->
      rec !! "Nationality" = Some (py.Str (" " +:+ country))).
Proof.
  intros Hbody%performance_body_emits Hbold Htext.
  destruct Hbody as [b' name' segment cell tr0 tr1 tec_last ath_last last_cell
                       ts as' score tg ag Hb Hname Hsegment Hcell Hkata Htr0
                       Htr1 Htl Hts Hal Has Hlc Hscore Htg Hag].
  assert (b' = b) as -> by congruence.
  rewrite lookup_name, lookup_nationality.
  split; [|split].
  - assert (Hocc : py.contains " (" (bs4.text b) = true)
      by (rewrite Htext; apply contains_app).
    apply contains_rfind in Hocc as [i Hi].
    destruct (rsplit1_found " (" (bs4.text b) i) as (before & after & Hsplit & Hcut & Hlast);
      [discriminate|exact Hi|].
    rewrite Hsplit in Hname. injection Hname as <-.
    exists before, after. split; [reflexivity|]. split; assumption.
  - intros Hlater. rewrite Htext in Hname. unfold spec.identity in Hname.
    rewrite rsplit1_unique in Hname; [injection Hname as <-; reflexivity|discriminate|].
    rewrite !app_String, app_empty_l. cbn [py.str_drop].
    rewrite contains_cons. exact Hlater.
  - intros Hcountry. rewrite Htext in Hsegment. unfold spec.identity in Hsegment.
    replace (name +:+ " (" +:+ city +:+ ", " +:+ country +:+ ")")
      with ((name +:+ " (" +:+ city) +:+ "," +:+ (" " +:+ country) +:+ ")")
      in Hsegment by (rewrite !app_assoc_str; reflexivity).
    rewrite rsplit1_unique in Hsegment; [|discriminate|].
    + injection Hsegment as <-.
      rewrite (str_slice_to_neg_app _ ")").
      reflexivity.
    + rewrite app_String, app_empty_l. cbn [py.str_drop].
      rewrite !contains_char_app, Hcountry. reflexivity.
Qed.

Lemma identity_fields_witness :
  sample.spaced_record !! "Name" = Some (py.Str "Ann (Jr) Lee")
  /\ sample.spaced_record !! "Nationality" = Some (py.Str " FRA").
Proof.
  destruct (identity_fields "T" "C" "1" [] sample.spaced_identity_row
              sample.spaced_record
              (sample.txt "b" "Ann (Jr) Lee (Paris, FRA)")
              "Ann (Jr) Lee" "Paris" "FRA")
    as (_ & Hname & Hnationality).
  - vm_compute. reflexivity.
  - reflexivity.
  - reflexivity.
  - split; [apply Hname|apply Hnationality]; reflexivity.
Defined.

(** * The grade conversion *)

Lemma app_empty_r s : s +:+ "" = s.
Proof.
  induction s as [|c s IH]; [reflexivity|]. rewrite app_String, IH.
  reflexivity.
Qed.

Lemma replace_app old new s t :
  py.replace old new (s +:+ t) = py.replace old new s +:+ py.replace old new t.
Proof.
  induction s as [|c s IH]; [reflexivity|].
  rewrite app_String. simpl. rewrite IH. reflexivity.
Qed.

Lemma all_digits_cons c s :
  spec.all_digits (String c s) = true
  <-> (exists d, py.is_digit c = Some d) /\ spec.all_digits s = true.
Proof.
  simpl. rewrite andb_true_iff, bool_decide_eq_true. reflexivity.
Qed.

Lemma all_digits_comma_free s : spec.all_digits s = true -> comma_free s = true.
Proof.
  induction s as [|c s IH]; [reflexivity|].
  intros [[d Hd] Hs]%all_digits_cons.
  apply comma_free_cons; [eapply digit_not_comma, Hd|apply IH, Hs].
Qed.

(** A text in decimal-comma form is a digit string, a comma and a digit
    string. *)
Lemma decimal_comma_form_split s :
  spec.decimal_comma_form s = true ->
  exists a b,
    s = a +:+ "," +:+ b
    /\ spec.digit_string a = true /\ spec.digit_string b = true.
Proof.
  induction s as [|c s IH]; [discriminate|].
  cbn [spec.decimal_comma_form].
  intros [Hc [Hhere|Hlater]%orb_true_iff]%andb_true_iff.
  - destruct s as [|c' s']; [discriminate|].
    destruct (decide (c' = ","%char)) as [->|Hc'].
    + exists (String c ""), s'. split; [reflexivity|]. split; [|exact Hhere].
      unfold spec.digit_string. simpl. rewrite Hc. reflexivity.
    + destruct c' as [[] [] [] [] [] [] [] []]; try discriminate.
      contradiction.
  - destruct (IH Hlater) as (a & b & -> & Ha & Hb).
    exists (String c a), b. split; [reflexivity|]. split; [|exact Hb].
    unfold spec.digit_string in *. simpl. rewrite Hc.
    apply andb_true_iff in Ha as [_ ->]. reflexivity.
Qed.

Lemma digit_string_cons s :
  spec.digit_string s = true ->
  exists c d s',
    s = String c s' /\ py.is_digit c = Some d /\ spec.all_digits s' = true.
Proof.
  unfold spec.digit_string. destruct s as [|c s']; [discriminate|].
  intros [_ [[d Hd] Hs]%all_digits_cons]%andb_true_iff.
  exists c, d, s'. auto.
Qed.

Lemma digits_tail_all_digits a r :
  spec.all_digits a = true ->
  py.digits_tail r = ([], r) ->
  exists ds, py.digits_tail (a +:+ r) = (ds, r).
Proof.
  intros Ha Hr. induction a as [|c a IH]; [exists []; exact Hr|].
  apply all_digits_cons in Ha as [[d Hd] Ha].
  destruct (IH Ha) as [ds Hds].
  exists (d :: ds). rewrite app_String, digits_tail_eq, Hd, Hds. reflexivity.
Qed.

Lemma digitpart_digit_string a r :
  spec.digit_string a = true ->
  py.digits_tail r = ([], r) ->
  exists ds, py.digitpart (a +:+ r) = Some (ds, r).
Proof.
  intros (c & d & a' & -> & Hd & Ha')%digit_string_cons Hr.
  destruct (digits_tail_all_digits a' r Ha' Hr) as [ds Hds].
  exists (d :: ds). rewrite app_String. unfold py.digitpart.
  rewrite Hd, Hds. reflexivity.
Qed.

Lemma digit_not_space c d : py.is_digit c = Some d -> py.is_space c = false.
Proof.
  destruct c as [[] [] [] [] [] [] [] []]; try discriminate; reflexivity.
Qed.

Lemma rstrip_all_digits s : spec.all_digits s = true -> py.rstrip s = s.
Proof.
  induction s as [|c s IH]; [reflexivity|].
  intros [[d Hd] Hs]%all_digits_cons. simpl. rewrite (IH Hs).
  destruct s; [|reflexivity]. rewrite (digit_not_space _ _ Hd). reflexivity.
Qed.

Lemma rstrip_app s t :
  py.rstrip t <> "" -> py.rstrip (s +:+ t) = s +:+ py.rstrip t.
Proof.
  intros Ht. induction s as [|c s IH]; [reflexivity|].
  rewrite !app_String. simpl. rewrite IH.
  destruct (s +:+ py.rstrip t) eqn:Hs; [|reflexivity].
  destruct s; [|discriminate]. contradiction.
Qed.

Lemma sign_digit c d s :
  py.is_digit c = Some d -> py.sign (String c s) = (false, String c s).
Proof.
  destruct c as [[] [] [] [] [] [] [] []]; try discriminate; reflexivity.
Qed.

Lemma lower_digit c d s word :
  py.is_digit c = Some d ->
  word ∈ ["inf"; "infinity"; "nan"] ->
  bool_decide (py.lower (String c s) = word) = false.
Proof.
  intros Hd Hword. apply bool_decide_eq_false. intros Heq.
  repeat (apply elem_of_cons in Hword as [->|Hword]); try inversion Hword;
    destruct c as [[] [] [] [] [] [] [] []]; discriminate.
Qed.

(** The rounding of an unsigned number is a finite number or the positive
    infinity. *)
Lemma binary64_unsigned q :
  py.binary64 false q = py.Inf false \/ exists r, py.binary64 false q = py.Finite r.
Proof.
  unfold py.binary64. destruct (_ <=? 0)%Z; [right; eexists; reflexivity|].
  destruct (py.scaled _ _ (Z.log2 _ - _)) as [a b].
  destruct (py.scaled _ _ (Z.max _ _)) as [a' b'].
  destruct (_ && _); [left; reflexivity|].
  destruct (_ =? 0)%Z; right; eexists; reflexivity.
Qed.

(** Every text in decimal-comma form is converted, to a finite number or,
    beyond the range of binary64, to the positive infinity. *)
Lemma to_grade_decimal_comma a b :
  spec.digit_string a = true ->
  spec.digit_string b = true ->
  exists x,
    data_utils.to_grade (a +:+ "," +:+ b) = Ok x
    /\ (x = py.Inf false \/ exists q, x = py.Finite q).
Proof.
  intros Ha Hb. unfold data_utils.to_grade.
  assert (Ha' : spec.all_digits a = true)
    by (unfold spec.digit_string in Ha; apply andb_true_iff in Ha as [_ ?]; assumption).
  assert (Hb' : spec.all_digits b = true)
    by (unfold spec.digit_string in Hb; apply andb_true_iff in Hb as [_ ?]; assumption).
  rewrite !replace_app.
  rewrite (replace_comma_free a), (replace_comma_free b)
    by (apply all_digits_comma_free; assumption).
  change (py.replace "," "." ",") with ".".
  destruct (digitpart_digit_string a ("." +:+ b) Ha eq_refl) as [ip Hip].
  destruct (digitpart_digit_string b "" Hb eq_refl) as [fp Hfp].
  rewrite app_empty_r in Hfp.
  destruct (digit_string_cons a Ha) as (c & d & a' & -> & Hd & _).
  unfold py.float, py.strip.
  rewrite app_String in *. simpl py.lstrip. rewrite (digit_not_space _ _ Hd).
  rewrite <- app_String.
  replace (py.rstrip (String c a' +:+ "." +:+ b))
    with (String c a' +:+ "." +:+ b).
  2:{ symmetry. rewrite <- app_assoc_str. rewrite rstrip_app.
      - rewrite rstrip_all_digits by exact Hb'. reflexivity.
      - rewrite rstrip_all_digits by exact Hb'.
        destruct b; [discriminate Hb|discriminate]. }
  rewrite app_String, (sign_digit _ _ _ Hd).
  rewrite !(lower_digit _ _ _ _ Hd) by (apply (bool_decide_unpack _); reflexivity).
  cbn [orb]. unfold py.number. rewrite Hip.
  rewrite app_String, app_empty_l, Hfp. cbn [py.exponent].
  eexists. split; [reflexivity|]. apply binary64_unsigned.
Qed.

(** ** A number needs a digit *)

Lemma has_digit_cons c s :
  has_digit s = true -> has_digit (String c s) = true.
Proof. intros Hs. simpl. rewrite Hs. apply orb_true_r. Qed.

Lemma has_digit_lstrip s : has_digit (py.lstrip s) = true -> has_digit s = true.
Proof.
  induction s as [|c s IH]; [exact id|]. simpl py.lstrip.
  destruct (py.is_space c); [|exact id].
  intros Hs. apply has_digit_cons, IH, Hs.
Qed.

Lemma has_digit_rstrip s : has_digit (py.rstrip s) = true -> has_digit s = true.
Proof.
  induction s as [|c s IH]; [exact id|]. simpl py.rstrip.
  destruct (py.rstrip s) as [|c' r] eqn:Hr.
  - destruct (py.is_space c); [discriminate|]. simpl.
    rewrite orb_false_r. intros ->. reflexivity.
  - simpl. intros [Hc|Hs]%orb_true_iff.
    + rewrite Hc. reflexivity.
    + apply orb_true_iff. right. apply IH. exact Hs.
Qed.

Lemma sign_cases s :
  py.sign s = (false, s)
  \/ exists c s', s = String c s' /\ (c = "+"%char \/ c = "-"%char)
                  /\ snd (py.sign s) = s'.
Proof.
  destruct s as [|c s']; [left; reflexivity|].
  destruct (decide (c = "+"%char)) as [->|Hplus];
    [right; exists "+"%char, s'; auto|].
  destruct (decide (c = "-"%char)) as [->|Hminus];
    [right; exists "-"%char, s'; auto|].
  left. destruct c as [[] [] [] [] [] [] [] []]; try reflexivity; contradiction.
Qed.

Lemma has_digit_sign s neg body :
  py.sign s = (neg, body) -> has_digit body = true -> has_digit s = true.
Proof.
  intros Hsign Hbody.
  destruct (sign_cases s) as [Hs|(c & s' & -> & _ & Hs)].
  - rewrite Hs in Hsign. injection Hsign as _ <-. exact Hbody.
  - rewrite Hsign in Hs. simpl in Hs. subst s'. apply has_digit_cons, Hbody.
Qed.

Lemma has_digit_digitpart s ds r :
  py.digitpart s = Some (ds, r) -> has_digit s = true.
Proof.
  unfold py.digitpart. destruct s as [|c s]; [discriminate|].
  destruct (py.is_digit c) as [d|] eqn:Hd; [|discriminate].
  intros _. simpl. rewrite Hd. rewrite bool_decide_eq_true_2 by (eexists; reflexivity).
  reflexivity.
Qed.

Lemma has_digit_number s ip fp r :
  py.number s = Some (ip, fp, r) -> has_digit s = true.
Proof.
  unfold py.number. destruct (py.digitpart s) as [[ip' r1]|] eqn:Hint.
  - intros _. eapply has_digit_digitpart, Hint.
  - destruct s as [|c s']; [discriminate|].
    destruct (decide (c = "."%char)) as [->|Hc].
    + destruct (py.digitpart s') as [[fp' r2]|] eqn:Hfrac; [|discriminate].
      intros _. eapply has_digit_cons, has_digit_digitpart, Hfrac.
    + destruct c as [[] [] [] [] [] [] [] []]; try discriminate. contradiction.
Qed.

Lemma has_digit_replace s :
  has_digit (py.replace "," "." s) = has_digit s.
Proof.
  induction s as [|c s IH]; [reflexivity|]. simpl. rewrite IH.
  destruct (decide (c = ","%char)) as [->|Hc]; [reflexivity|].
  rewrite (bool_decide_eq_false_2 (c = ","%char)) by exact Hc. reflexivity.
Qed.

(** [float] makes a finite number of a text with a digit only. *)
Lemma float_needs_digit s x :
  py.float s = Ok x ->
  has_digit s = true \/ x = py.NaN \/ exists negative, x = py.Inf negative.
Proof.
  unfold py.float. destruct (py.sign (py.strip s)) as [neg body] eqn:Hsign.
  destruct (_ || _); [intros [= <-]; right; right; eexists; reflexivity|].
  destruct (bool_decide _); [intros [= <-]; right; left; reflexivity|].
  destruct (py.number body) as [[[ip fp] r]|] eqn:Hnum; [|discriminate].
  intros _. left.
  apply has_digit_lstrip, has_digit_rstrip.
  eapply has_digit_sign; [exact Hsign|].
  eapply has_digit_number, Hnum.
Qed.

(** ** A number has one point at most *)

Lemma dots_cons c s :
  c <> "."%char -> dots (String c s) = dots s.
Proof. intros Hc. simpl. rewrite bool_decide_eq_false_2 by exact Hc. reflexivity. Qed.

Lemma space_not_dot c : py.is_space c = true -> c <> "."%char.
Proof. intros Hs ->. discriminate Hs. Qed.

Lemma digit_not_dot c d : py.is_digit c = Some d -> c <> "."%char.
Proof. intros Hd ->. discriminate Hd. Qed.

Lemma dots_lstrip s : dots (py.lstrip s) = dots s.
Proof.
  induction s as [|c s IH]; [reflexivity|]. simpl py.lstrip.
  destruct (py.is_space c) eqn:Hc; [|reflexivity].
  rewrite IH, dots_cons by (apply space_not_dot, Hc). reflexivity.
Qed.

Lemma dots_rstrip s : dots (py.rstrip s) = dots s.
Proof.
  induction s as [|c s IH]; [reflexivity|]. simpl py.rstrip.
  destruct (py.rstrip s) as [|c' r] eqn:Hr.
  - destruct (py.is_space c) eqn:Hc.
    + rewrite dots_cons by (apply space_not_dot, Hc). exact IH.
    + simpl in *. rewrite <- IH. reflexivity.
  - simpl in *. rewrite <- IH. reflexivity.
Qed.

Lemma dots_sign s neg body : py.sign s = (neg, body) -> dots body = dots s.
Proof.
  intros Hsign.
  destruct (sign_cases s) as [Hs|(c & s' & -> & Hc & Hs)].
  - rewrite Hs in Hsign. injection Hsign as _ <-. reflexivity.
  - rewrite Hsign in Hs. simpl in Hs. subst s'.
    rewrite dots_cons; [reflexivity|]. destruct Hc as [-> | ->]; discriminate.
Qed.

Lemma lower_char_dot c : py.lower_char c = "."%char <-> c = "."%char.
Proof.
  split; [|intros ->; reflexivity].
  destruct c as [[] [] [] [] [] [] [] []]; vm_compute; congruence.
Qed.

Lemma dots_lower s : dots (py.lower s) = dots s.
Proof.
  induction s as [|c s IH]; [reflexivity|]. simpl. rewrite IH. f_equal.
  destruct (decide (c = "."%char)) as [->|Hc]; [reflexivity|].
  rewrite (bool_decide_eq_false_2 (c = "."%char)) by exact Hc.
  rewrite (bool_decide_eq_false_2 (py.lower_char c = "."%char))
    by (intros H; apply (proj1 (lower_char_dot c)) in H; contradiction).
  reflexivity.
Qed.

Lemma dots_digits_tail s ds r :
  py.digits_tail s = (ds, r) -> dots s = dots r.
Proof.
  remember (py.len s) as n eqn:Hn. assert (Hlen : py.len s <= n) by lia.
  clear Hn. revert s ds r Hlen.
  induction n as [|n IH]; intros [|c s] ds r Hlen;
    try (intros [= _ <-]; reflexivity); [cbn in Hlen; lia|].
  assert (Hs : py.len s <= n) by (cbn in Hlen; unfold py.len; lia).
  rewrite digits_tail_eq. destruct (py.is_digit c) as [d|] eqn:Hd.
  - destruct (py.digits_tail s) as [ds' r'] eqn:Htail. intros [= _ <-].
    rewrite dots_cons by (eapply digit_not_dot, Hd). eapply IH; eassumption.
  - case_bool_decide as Hc; [subst c|intros [= _ <-]; reflexivity].
    destruct s as [|c' s']; [intros [= _ <-]; reflexivity|].
    destruct (py.is_digit c') as [d|] eqn:Hd'; [|intros [= _ <-]; reflexivity].
    destruct (py.digits_tail s') as [ds' r'] eqn:Htail. intros [= _ <-].
    rewrite dots_cons by discriminate.
    rewrite dots_cons by (eapply digit_not_dot, Hd').
    eapply (IH s'); [cbn in Hs; unfold py.len; lia|exact Htail].
Qed.

Lemma dots_digitpart s ds r :
  py.digitpart s = Some (ds, r) -> dots s = dots r.
Proof.
  unfold py.digitpart. destruct s as [|c s]; [discriminate|].
  destruct (py.is_digit c) as [d|] eqn:Hd; [|discriminate].
  destruct (py.digits_tail s) as [ds' r'] eqn:Htail. intros [= _ <-].
  rewrite dots_cons by (eapply digit_not_dot, Hd).
  eapply dots_digits_tail, Htail.
Qed.

Lemma dots_number s ip fp r :
  py.number s = Some (ip, fp, r) -> dots s <= 1 + dots r.
Proof.
  unfold py.number. destruct (py.digitpart s) as [[ip' r1]|] eqn:Hint.
  - intros Hnum. rewrite (dots_digitpart _ _ _ Hint).
    destruct r1 as [|c r1']; [injection Hnum as _ _ <-; simpl; lia|].
    destruct (decide (c = "."%char)) as [->|Hc].
    + destruct (py.digitpart r1') as [[fp' r2]|] eqn:Hfrac.
      * injection Hnum as _ _ <-. simpl.
        rewrite (dots_digitpart _ _ _ Hfrac). lia.
      * injection Hnum as _ _ <-. simpl. lia.
    + destruct c as [[] [] [] [] [] [] [] []];
        try (injection Hnum as _ _ <-; lia). contradiction.
  - destruct s as [|c s']; [discriminate|].
    destruct (decide (c = "."%char)) as [->|Hc].
    + destruct (py.digitpart s') as [[fp' r2]|] eqn:Hfrac; [|discriminate].
      intros [= _ _ <-]. simpl. rewrite (dots_digitpart _ _ _ Hfrac). lia.
    + destruct c as [[] [] [] [] [] [] [] []]; try discriminate. contradiction.
Qed.

Lemma dots_exponent r e : py.exponent r = Some e -> dots r = 0.
Proof.
  unfold py.exponent. destruct r as [|c r]; [reflexivity|].
  destruct (bool_decide (c = "e"%char) || bool_decide (c = "E"%char)) eqn:Hc;
    [|discriminate].
  destruct (py.sign r) as [neg r'] eqn:Hsign.
  destruct (py.digitpart r') as [[ds [|]]|] eqn:Hdigits; try discriminate.
  intros _. rewrite dots_cons by (intros ->; discriminate Hc).
  rewrite <- (dots_sign _ _ _ Hsign), (dots_digitpart _ _ _ Hdigits).
  reflexivity.
Qed.

(** [float] accepts no text with two dots. *)
Lemma float_one_dot s x : py.float s = Ok x -> dots s <= 1.
Proof.
  unfold py.float. destruct (py.sign (py.strip s)) as [neg body] eqn:Hsign.
  intros Hfloat.
  rewrite <- dots_lstrip, <- dots_rstrip.
  change (py.rstrip (py.lstrip s)) with (py.strip s).
  rewrite <- (dots_sign _ _ _ Hsign), <- dots_lower.
  destruct (bool_decide (py.lower body = "inf")
            || bool_decide (py.lower body = "infinity")) eqn:Hinf.
  { apply orb_true_iff in Hinf as [->%bool_decide_eq_true| ->%bool_decide_eq_true];
      simpl; lia. }
  destruct (bool_decide (py.lower body = "nan")) eqn:Hnan.
  { apply bool_decide_eq_true in Hnan as ->. simpl. lia. }
  destruct (py.number body) as [[[ip fp] r]|] eqn:Hnum; [|discriminate].
  destruct (py.exponent r) as [e|] eqn:Hexp; [|discriminate].
  rewrite dots_lower. apply dots_number in Hnum.
  rewrite (dots_exponent _ _ Hexp) in Hnum. lia.
Qed.

Lemma dots_replace s : dots (py.replace "," "." s) = separators s.
Proof.
  induction s as [|c s IH]; [reflexivity|]. simpl. rewrite IH. f_equal.
  destruct (decide (c = ","%char)) as [->|Hc]; [reflexivity|].
  rewrite (bool_decide_eq_false_2 (c = ","%char)) by exact Hc. reflexivity.
Qed.

(** C4, what the code does on texts that are not in decimal-comma form:
    a dot-decimal text, an integer and a padded text are converted. *)
Lemma texts_without_comma_convert :
  spec.decimal_comma_form "8.5" = false
  /\ data_utils.to_grade "8.5" = Ok (py.Finite (17 # 2))
  /\ spec.decimal_comma_form "9" = false
  /\ data_utils.to_grade "9" = Ok (py.Finite 9)
  /\ spec.decimal_comma_form " 8,5 " = false
  /\ data_utils.to_grade " 8,5 " = Ok (py.Finite (17 # 2)).
Proof. repeat split. Qed.

(** C4, as the code has it.  The conversion maps ["8,5"] to 8.5 and turns
    every text in decimal-comma form into a number, finite or, beyond the
    range of binary64, infinite.  On a text without comma it is [float]
    itself, so that dot-decimal texts and integers are converted as well.
    Whatever is not converted raises [ValueError]: every text with two or
    more commas or dots does, and a text without any digit is never made a
    finite number, so that nothing is coerced to zero. *)
Theorem grade_conversion :
  data_utils.to_grade "8,5" = Ok (py.Finite (17 # 2))
  /\ (forall s,
        spec.decimal_comma_form s = true ->
        exists x,
          data_utils.to_grade s = Ok x
          /\ (x = py.Inf false \/ exists q, x = py.Finite q))
  /\ (forall s, comma_free s = true -> data_utils.to_grade s = py.float s)
  /\ (forall s e, data_utils.to_grade s = Raise e -> e = ValueError)
  /\ (forall s, 2 <= separators s -> data_utils.to_grade s = Raise ValueError)
  /\ (forall s x,
        has_digit s = false ->
        data_utils.to_grade s = Ok x ->
        x = py.NaN \/ exists negative, x = py.Inf negative)
  /\ data_utils.to_grade "" = Raise ValueError
  /\ data_utils.to_grade "abc" = Raise ValueError
  /\ data_utils.to_grade "8,5,1" = Raise ValueError.
Proof.
  split; [reflexivity|]. split; [|split; [|split; [|split; [|split]]]].
  - intros s (a & b & -> & Ha & Hb)%decimal_comma_form_split.
    apply to_grade_decimal_comma; assumption.
  - intros s Hs. unfold data_utils.to_grade.
    rewrite replace_comma_free by exact Hs. reflexivity.
  - intros s e. apply float_raises_ValueError.
  - intros s Hs. unfold data_utils.to_grade.
    destruct (py.float (py.replace "," "." s)) as [x|e] eqn:Hfloat.
    + apply float_one_dot in Hfloat. rewrite dots_replace in Hfloat. lia.
    + apply float_raises_ValueError in Hfloat as ->. reflexivity.
  - intros s x Hs Hx. unfold data_utils.to_grade in Hx.
    apply float_needs_digit in Hx as [Hd|Hx]; [|exact Hx].
    rewrite has_digit_replace in Hd. congruence.
  - repeat split.
Qed.

Lemma grade_conversion_witness :
  (exists x,
      data_utils.to_grade "10,25" = Ok x
      /\ (x = py.Inf false \/ exists q, x = py.Finite q))
  /\ data_utils.to_grade "1,2.3" = Raise ValueError.
Proof.
  split.
  - apply (proj1 (proj2 grade_conversion) "10,25"). reflexivity.
  - apply (proj1 (proj2 (proj2 (proj2 (proj2 grade_conversion)))) "1,2.3").
    vm_compute. lia.
Defined.

(** * Loops that only append *)

(** A loop whose body appends to the accumulator what it produces for the
    element alone yields the accumulator followed by the productions, in
    order. *)
Lemma for_each_appending {A B} (body : list B -> A -> result (list B))
    (xs : list A) :
  (forall acc x, body acc x = (acc ++.) <$> body [] x) ->
  forall acc,
    py.for_each body xs acc
    = (fun ys => acc ++ concat ys) <$> py.comprehension (body []) xs.
Proof.
  intros Hbody. induction xs as [|x xs IH]; intros acc.
  - simpl. rewrite app_nil_r. reflexivity.
  - cbn [py.for_each py.comprehension]. rewrite (Hbody acc x).
    destruct (body [] x) as [y|e]; [|reflexivity].
    cbn [fmap result_fmap mbind py.result_bind]. rewrite IH.
    destruct (py.comprehension (body []) xs) as [ys|e]; [|reflexivity].
    cbn. rewrite app_assoc. reflexivity.
Qed.

Lemma fmap_bind {A B C} (g : B -> C) (m : result A) (f : A -> result B) :
  g <$> (m ≫= f) = m ≫= fun a => g <$> f a.
Proof. destruct m; reflexivity. Qed.

Lemma bind_ext {A B} (m : result A) (f g : A -> result B) :
  (forall a, f a = g a) -> m ≫= f = m ≫= g.
Proof. intros Hfg. destruct m; [apply Hfg|reflexivity]. Qed.

Ltac under_bind := rewrite fmap_bind; apply bind_ext.

(** What the body of the row loop appends does not depend on the records
    collected so far. *)
Lemma performance_body_acc tournament category pool data row :
  data_utils.performance_body tournament category pool data row
  = (data ++.) <$> data_utils.performance_body tournament category pool [] row.
Proof.
  unfold data_utils.performance_body.
  do 4 (under_bind; intros ?).
  destruct (_ && _); [|cbn; rewrite app_nil_r; reflexivity].
  under_bind; intros rows. under_bind; intros [TEC ATH].
  do 8 (under_bind; intros ?). reflexivity.
Qed.

Lemma for_each_rows_acc tournament category pool rows data :
  py.for_each (data_utils.performance_body tournament category pool) rows data
  = (fun recs => data ++ concat recs)
      <$> py.comprehension
            (data_utils.performance_body tournament category pool []) rows.
Proof.
  apply for_each_appending. intros acc row. apply performance_body_acc.
Qed.

Lemma table_body_acc tournament category data table :
  data_utils.table_body tournament category data table
  = (data ++.) <$> data_utils.table_body tournament category [] table.
Proof.
  unfold data_utils.table_body.
  do 2 (under_bind; intros ?).
  rewrite !for_each_range, !for_each_rows_acc.
  destruct (py.comprehension _ _); reflexivity.
Qed.

(** X1.  The loop over the rows of a table only appends: it returns the
    records it was given followed by what each row yields on its own, in
    the order of the rows, and a row yields at most one record. *)
Theorem row_loop_appends (tournament category pool : string)
    (rows : list bs4.node) (data : list dict) :
  py.for_each (data_utils.performance_body tournament category pool) rows data
  = (fun recs => data ++ concat recs)
      <$> py.comprehension
            (data_utils.performance_body tournament category pool []) rows
  /\ forall row recs,
      data_utils.performance_body tournament category pool [] row = Ok recs ->
      length recs <= 1.
Proof.
  split; [apply for_each_rows_acc|].
  intros row recs [[_ ->]|(rec & _ & ->)]%performance_body_Ok; simpl; lia.
Qed.

(** X2.  The records of a round are the records of its pool tables, each
    table processed on its own, concatenated in document order. *)
Theorem round_is_concatenation `{W : World} (url : string) :
  data_utils.get_round_performances url
  = '(tables, tournament, category) ← data_utils.category_data url;
    (fun per_table : list (list dict) => concat per_table)
      <$> py.comprehension
            (data_utils.table_body tournament category []) tables.
Proof.
  unfold data_utils.get_round_performances.
  apply bind_ext. intros [[tables tournament] category].
  rewrite for_each_appending by (intros; apply table_body_acc).
  destruct (py.comprehension _ _); reflexivity.
Qed.

(** * The exceptions of the extraction *)

Lemma getitem_Raise {A} (xs : list A) i e :
  py.getitem xs i = Raise e -> e = IndexError.
Proof. unfold py.getitem. destruct (xs !! i); congruence. Qed.

Lemma getitem_last_Raise {A} (xs : list A) e :
  py.getitem_last xs = Raise e -> e = IndexError.
Proof. unfold py.getitem_last. destruct (last xs); congruence. Qed.

Lemma unpack2_Raise {A} (xs : list A) e :
  py.unpack2 xs = Raise e -> e = ValueError.
Proof. destruct xs as [|? [|? [|? ?]]]; simpl; congruence. Qed.

(** A comprehension raises what its first failing element raises. *)
Lemma comprehension_Raise {A B} (f : A -> result B) xs e :
  py.comprehension f xs = Raise e
  <-> exists pre x post,
        xs = pre ++ x :: post
        /\ Forall (fun y => exists b, f y = Ok b) pre
        /\ f x = Raise e.
Proof.
  induction xs as [|x xs IH]; simpl.
  - split; [discriminate|]. intros (pre & y & post & Hnil & _).
    destruct pre; discriminate.
  - split.
    + intros [Hx|(b & Hx & [Hxs|(bs & _ & [=])]%bind_Raise)]%bind_Raise.
      * exists [], x, xs. repeat split; [constructor|exact Hx].
      * apply IH in Hxs as (pre & y & post & -> & Hpre & Hy).
        exists (x :: pre), y, post. repeat split; [|exact Hy].
        constructor; [exists b; exact Hx|exact Hpre].
    + intros ([|z pre] & y & post & [= -> ->] & Hpre & Hy).
      * rewrite Hy. reflexivity.
      * apply Forall_cons in Hpre as [[b Hb] Hpre]. rewrite Hb.
        cbn [mbind py.result_bind].
        rewrite (proj2 IH) by (exists pre, y, post; auto). reflexivity.
Qed.

Lemma comprehension_Ok {A B} (f : A -> result B) xs ys :
  py.comprehension f xs = Ok ys <-> Forall2 (fun x y => f x = Ok y) xs ys.
Proof.
  revert ys. induction xs as [|x xs IH]; intros ys; simpl.
  - split; [intros [= <-]; constructor|intros ->%Forall2_nil_inv_l; reflexivity].
  - split.
    + intros (y & Hy & (ys' & Hys & [= <-])%bind_Ok)%bind_Ok.
      constructor; [exact Hy|apply IH, Hys].
    + intros (y & ys' & Hy & Hys & ->)%Forall2_cons_inv_l.
      rewrite Hy. cbn [mbind py.result_bind].
      rewrite (proj2 (IH ys') Hys). reflexivity.
Qed.

Lemma for_each_Raise {A St} (body : St -> A -> result St) xs acc e :
  py.for_each body xs acc = Raise e ->
  exists acc' x, x ∈ xs /\ body acc' x = Raise e.
Proof.
  revert acc. induction xs as [|x xs IH]; intros acc; simpl; [discriminate|].
  intros [Hx|(acc' & _ & Hxs)]%bind_Raise.
  - exists acc, x. split; [left|exact Hx].
  - destruct (IH _ Hxs) as (acc'' & y & Hy & Hbody).
    exists acc'', y. split; [right; exact Hy|exact Hbody].
Qed.

Lemma to_grades_Raise texts e :
  py.comprehension data_utils.to_grade texts = Raise e -> e = ValueError.
Proof.
  intros (_ & x & _ & _ & _ & Hx)%comprehension_Raise.
  eapply float_raises_ValueError, Hx.
Qed.

Lemma performance_body_Raise tournament category pool data row e :
  data_utils.performance_body tournament category pool data row = Raise e ->
  e = IndexError \/ e = ValueError.
Proof.
  unfold data_utils.performance_body.
  intros [H%getitem_Raise|(b & _ & H)]%bind_Raise; [auto|].
  apply bind_Raise in H as [H%getitem_Raise|(name & _ & H)]; [auto|].
  apply bind_Raise in H as [H%getitem_last_Raise|(segment & _ & H)]; [auto|].
  apply bind_Raise in H as [H%getitem_Raise|(cell & _ & H)]; [auto|].
  destruct (_ && _); [|discriminate].
  apply bind_Raise in H as [H|(rows & _ & H)].
  { apply comprehension_Raise in H as (_ & i & _ & _ & _ & H).
    apply bind_Raise in H as [H%getitem_Raise|(tr & _ & [=])]. auto. }
  apply bind_Raise in H as [H%unpack2_Raise|([TEC ATH] & _ & H)]; [auto|].
  apply bind_Raise in H as [H%getitem_last_Raise|(? & _ & H)]; [auto|].
  apply bind_Raise in H as [H%float_raises_ValueError|(? & _ & H)]; [auto|].
  apply bind_Raise in H as [H%getitem_last_Raise|(? & _ & H)]; [auto|].
  apply bind_Raise in H as [H%float_raises_ValueError|(? & _ & H)]; [auto|].
  apply bind_Raise in H as [H%getitem_last_Raise|(? & _ & H)]; [auto|].
  apply bind_Raise in H as [H%float_raises_ValueError|(? & _ & H)]; [auto|].
  apply bind_Raise in H as [H%to_grades_Raise|(? & _ & H)]; [auto|].
  apply bind_Raise in H as [H%to_grades_Raise|(? & _ & [=])]. auto.
Qed.

Lemma table_body_Raise tournament category data table e :
  data_utils.table_body tournament category data table = Raise e ->
  e = IndexError \/ e = ValueError.
Proof.
  unfold data_utils.table_body.
  intros [H%getitem_Raise|(first_row & _ & H)]%bind_Raise; [auto|].
  apply bind_Raise in H as [H%getitem_Raise|(pool & _ & H)]; [auto|].
  apply for_each_Raise in H as (acc & k & _ & H).
  apply bind_Raise in H as [H%getitem_Raise|(row & _ & H)]; [auto|].
  eapply performance_body_Raise, H.
Qed.

Lemma category_data_Raise `{W : World} url e :
  data_utils.category_data url = Raise e ->
  requests_get url = Raise e
  \/ (exists content,
        requests_get url = Ok content /\ BeautifulSoup content = Raise e)
  \/ e = IndexError \/ e = ValueError.
Proof.
  unfold data_utils.category_data.
  intros [H|(content & Hget & H)]%bind_Raise; [auto|].
  apply bind_Raise in H as [H|(soup & _ & H)]; [right; left; eauto|].
  apply bind_Raise in H as [H%getitem_Raise|(header & _ & H)]; [auto|].
  apply bind_Raise in H as [H%unpack2_Raise|([t c] & _ & [=])]. auto.
Qed.

(** X3.  A row and a pool table raise nothing but [IndexError] (a part
    that is indexed is missing) and [ValueError] (a number that does not
    parse); extracting a round raises nothing but what fetching the page
    raises, what parsing it raises, [IndexError] and [ValueError]. *)
Theorem extraction_exceptions `{W : World} :
  (forall tournament category pool data row e,
      data_utils.performance_body tournament category pool data row = Raise e ->
      e = IndexError \/ e = ValueError)
  /\ (forall tournament category data table e,
        data_utils.table_body tournament category data table = Raise e ->
        e = IndexError \/ e = ValueError)
  /\ (forall url e,
        data_utils.get_round_performances url = Raise e ->
        requests_get url = Raise e
        \/ (exists content,
              requests_get url = Ok content
              /\ BeautifulSoup content = Raise e)
        \/ e = IndexError \/ e = ValueError).
Proof.
  split; [apply performance_body_Raise|]. split; [apply table_body_Raise|].
  intros url e. unfold data_utils.get_round_performances.
  intros [H%category_data_Raise|([[tables t] c] & _ & H)]%bind_Raise;
    [exact H|].
  apply for_each_Raise in H as (acc & table & _ & H%table_body_Raise).
  right. right. exact H.
Qed.

Lemma row_loop_appends_witness :
  length [sample.full_record] <= 1.
Proof.
  apply (proj2 (row_loop_appends "T" "C" "1" [] []) sample.full_row).
  vm_compute. reflexivity.
Defined.

Lemma extraction_exceptions_witness :
  IndexError = IndexError \/ IndexError = ValueError.
Proof.
  apply (proj1 (extraction_exceptions (W := sample.empty_event))
           "T" "C" "1" [] sample.single_sub_row).
  reflexivity.
Defined.

(** * The values of the fields *)

Lemma fold_insert_notin (pairs : list (string * py.value)) (d : dict) key :
  key ∉ pairs.*1 ->
  fold_left (fun d kv => <[kv.1 := kv.2]> d) pairs d !! key = d !! key.
Proof.
  revert d. induction pairs as [|[k v] pairs IH]; intros d; [reflexivity|].
  cbn [fmap list_fmap fst fold_left]. intros [Hk Hrest]%not_elem_of_cons.
  rewrite IH by exact Hrest. apply lookup_insert_ne. congruence.
Qed.

(** [dict(zip(names, values))] maps the i-th name to the i-th value when
    the names are distinct. *)
Lemma dict_of_zip_lookup names (values : list py.value) i key v :
  NoDup names ->
  names !! i = Some key ->
  values !! i = Some v ->
  py.dict_of (zip names values) !! key = Some v.
Proof.
  unfold py.dict_of. generalize (∅ : dict).
  revert values i. induction names as [|k names IH];
    intros [|w values] i d Hnodup Hkey Hv; try (destruct i; discriminate).
  apply NoDup_cons in Hnodup as [Hk Hnodup].
  destruct i as [|i]; cbn [zip zip_with fold_left] in *.
  - injection Hkey as ->. injection Hv as ->. rewrite fold_insert_notin.
    + apply lookup_insert_eq.
    + intros ([a b] & -> & Hin%elem_of_zip_l)%list_elem_of_fmap.
      contradiction.
  - eapply IH; eassumption.
Qed.

Lemma numbered_lookup prefix n i :
  1 <= i <= n -> spec.numbered prefix n !! (i - 1) = Some (prefix +:+ py.str i).
Proof.
  intros Hi. unfold spec.numbered. rewrite list_lookup_fmap, lookup_seq_lt by lia.
  simpl. do 3 f_equal. lia.
Qed.

Lemma slice_lookup {A} (xs : list A) i :
  1 <= i <= 7 -> py.slice 1 8 xs !! (i - 1) = xs !! i.
Proof.
  intros Hi. unfold py.slice. rewrite lookup_drop, lookup_take_lt by lia.
  f_equal. lia.
Qed.

(** The value stored under the i-th name of a group of grades. *)
Lemma grades_lookup prefix (cells : list bs4.node) grades i cell :
  py.comprehension data_utils.to_grade (bs4.text <$> py.slice 1 8 cells)
  = Ok grades ->
  1 <= i <= 7 ->
  cells !! i = Some cell ->
  exists g,
    data_utils.to_grade (bs4.text cell) = Ok g
    /\ py.dict_of
         (zip (data_utils.grade_names prefix (length grades))
              (py.Float <$> grades))
         !! (prefix +:+ py.str i) = Some (py.Float g).
Proof.
  intros Hgrades Hi Hcell.
  pose proof (comprehension_length _ _ _ Hgrades) as Hlen.
  rewrite length_fmap in Hlen.
  apply comprehension_Ok in Hgrades.
  assert (Htext : (bs4.text <$> py.slice 1 8 cells) !! (i - 1)
                  = Some (bs4.text cell))
    by (rewrite list_lookup_fmap, slice_lookup, Hcell by exact Hi; reflexivity).
  destruct (Forall2_lookup_l _ _ _ _ _ Hgrades Htext) as (g & Hg & Hconv).
  exists g. split; [exact Hconv|].
  apply (dict_of_zip_lookup _ _ (i - 1)).
  - rewrite grade_names_numbered. apply NoDup_numbered.
  - rewrite grade_names_numbered. apply numbered_lookup.
    apply lookup_lt_Some in Hg. lia.
  - rewrite list_lookup_fmap, Hg. reflexivity.
Qed.

Lemma lookup_technical tournament category pool name nationality kata
    technical_grades athletic_grades total_score i :
  data_utils.perf_record tournament category pool name nationality kata
    technical_grades athletic_grades total_score !! ("TEC" +:+ py.str i)
  = match py.dict_of
            (zip (data_utils.grade_names "TEC" (length technical_grades))
                 (py.Float <$> technical_grades))
            !! ("TEC" +:+ py.str i) with
    | Some v => Some v
    | None => None
    end.
Proof.
  unfold data_utils.perf_record, py.update.
  rewrite lookup_union_r by reflexivity.
  rewrite lookup_union_r
    by (apply not_elem_of_grades; intros j; rewrite !app_String, !app_empty_l;
        discriminate).
  rewrite lookup_union.
  destruct (py.dict_of _ !! _) as [v|] eqn:Hv.
  - rewrite union_Some_l. reflexivity.
  - rewrite left_id by apply _.
    rewrite !lookup_insert_ne by (rewrite !app_String, !app_empty_l; discriminate).
    reflexivity.
Qed.

Lemma lookup_athletic tournament category pool name nationality kata
    technical_grades athletic_grades total_score i v :
  py.dict_of
    (zip (data_utils.grade_names "ATH" (length athletic_grades))
         (py.Float <$> athletic_grades))
    !! ("ATH" +:+ py.str i) = Some v ->
  data_utils.perf_record tournament category pool name nationality kata
    technical_grades athletic_grades total_score !! ("ATH" +:+ py.str i)
  = Some v.
Proof.
  intros Hv. unfold data_utils.perf_record, py.update.
  rewrite lookup_union_r by reflexivity.
  apply lookup_union_Some_l, Hv.
Qed.

(** X4.  In an emitted record, the field [TECi] (resp. [ATHi]), for [i]
    from 1 to 7, holds the conversion of the text of the cell of index [i]
    of the first (resp. second) nested sub-row, whenever the sub-row has
    such a cell. *)
Theorem grade_fields_values (tournament category pool : string)
    (data : list dict) (row : bs4.node) (rec : dict) :
  data_utils.performance_body tournament category pool data row
  = Ok (data ++ [rec]) ->
  exists tr0 tr1,
    bs4.find_all "tr" row !! 0 = Some tr0
    /\ bs4.find_all "tr" row !! 1 = Some tr1
    /\ forall i cell,
        1 <= i <= 7 ->
        (bs4.find_all "td" tr0 !! i = Some cell ->
         exists g,
           data_utils.to_grade (bs4.text cell) = Ok g
           /\ rec !! ("TEC" +:+ py.str i) = Some (py.Float g))
        /\ (bs4.find_all "td" tr1 !! i = Some cell ->
            exists g,
              data_utils.to_grade (bs4.text cell) = Ok g
              /\ rec !! ("ATH" +:+ py.str i) = Some (py.Float g)).
Proof.
  intros Hbody%performance_body_emits.
  destruct Hbody as [b name segment cell0 tr0 tr1 tec_last ath_last last_cell
                       ts as' score tg ag Hb Hname Hsegment Hcell Hkata Htr0
                       Htr1 Htl Hts Hal Has Hlc Hscore Htg Hag].
  exists tr0, tr1. split; [exact Htr0|]. split; [exact Htr1|].
  intros i cell Hi. split; intros Hcell'.
  - destruct (grades_lookup "TEC" _ _ i cell Htg Hi Hcell') as (g & Hg & Hlook).
    exists g. split; [exact Hg|]. rewrite lookup_technical, Hlook. reflexivity.
  - destruct (grades_lookup "ATH" _ _ i cell Hag Hi Hcell') as (g & Hg & Hlook).
    exists g. split; [exact Hg|]. apply lookup_athletic, Hlook.
Qed.

Lemma grade_fields_values_witness :
  exists tr0 tr1,
    bs4.find_all "tr" sample.full_row !! 0 = Some tr0
    /\ bs4.find_all "tr" sample.full_row !! 1 = Some tr1
    /\ forall i cell,
        1 <= i <= 7 ->
        (bs4.find_all "td" tr0 !! i = Some cell ->
         exists g,
           data_utils.to_grade (bs4.text cell) = Ok g
           /\ sample.full_record !! ("TEC" +:+ py.str i) = Some (py.Float g))
        /\ (bs4.find_all "td" tr1 !! i = Some cell ->
            exists g,
              data_utils.to_grade (bs4.text cell) = Ok g
              /\ sample.full_record !! ("ATH" +:+ py.str i)
                 = Some (py.Float g)).
Proof.
  apply (grade_fields_values "T" "C" "1" [] sample.full_row sample.full_record).
  vm_compute. reflexivity.
Defined.

Lemma emits_context tournament category pool row rec :
  emits tournament category pool row rec ->
  rec !! "Tournament" = Some (py.Str tournament)
  /\ rec !! "Category" = Some (py.Str category)
  /\ rec !! "Pool" = Some (py.Str pool)
  /\ exists cell,
      bs4.find_all "td" row !! 2 = Some cell
      /\ rec !! "Kata" = Some (py.Str (bs4.text cell)).
Proof.
  intros [b name segment cell tr0 tr1 tec_last ath_last last_cell ts as'
            score tg ag Hb Hname Hsegment Hcell Hkata Htr0 Htr1 Htl Hts Hal
            Has Hlc Hscore Htg Hag].
  repeat split;
    try (rewrite lookup_perf_record_text
           by (apply (bool_decide_unpack _); reflexivity);
         reflexivity).
  exists cell. split; [exact Hcell|].
  rewrite lookup_perf_record_text by (apply (bool_decide_unpack _); reflexivity).
  reflexivity.
Qed.

(** X5.  Every record of a round carries the tournament and the category
    that the Category Page Parser read from the header of the page, and
    every record produced from a row carries the pool label it was given
    and, as kata, the text of the third cell of the row. *)
Theorem context_fields `{W : World} :
  (forall tournament category pool data row rec,
      data_utils.performance_body tournament category pool data row
      = Ok (data ++ [rec]) ->
      rec !! "Pool" = Some (py.Str pool)
      /\ exists cell,
          bs4.find_all "td" row !! 2 = Some cell
          /\ rec !! "Kata" = Some (py.Str (bs4.text cell)))
  /\ (forall url tables tournament category data,
        data_utils.category_data url = Ok (tables, tournament, category) ->
        data_utils.get_round_performances url = Ok data ->
        Forall (fun rec =>
                  rec !! "Tournament" = Some (py.Str tournament)
                  /\ rec !! "Category" = Some (py.Str category)) data).
Proof.
  split.
  - intros tournament category pool data row rec
      (_ & _ & Hpool & Hkata)%performance_body_emits%emits_context.
    split; assumption.
  - intros url tables tournament category data Hpage.
    unfold data_utils.get_round_performances. rewrite Hpage.
    cbn [mbind py.result_bind].
    apply for_each_invariant; [|constructor].
    intros acc table acc' Hacc. unfold data_utils.table_body.
    intros (first_row & _ & (pool & _ & Hrows)%bind_Ok)%bind_Ok.
    revert Hrows. apply for_each_invariant; [|exact Hacc].
    clear. intros acc k acc' Hacc (row & _ & Hbody)%bind_Ok.
    apply performance_body_Ok in Hbody as [[_ ->]|(rec & Hemits & ->)];
      [exact Hacc|].
    apply Forall_app. split; [exact Hacc|].
    constructor; [|constructor].
    apply emits_context in Hemits as (Ht & Hc & _). split; assumption.
Qed.

Lemma context_fields_witness :
  sample.full_record !! "Pool" = Some (py.Str "1")
  /\ exists cell,
      bs4.find_all "td" sample.full_row !! 2 = Some cell
      /\ sample.full_record !! "Kata" = Some (py.Str (bs4.text cell)).
Proof.
  apply (proj1 (context_fields (W := sample.empty_event))
           "T" "C" "1" [] sample.full_row sample.full_record).
  vm_compute. reflexivity.
Defined.

(** * Rows that raise *)

(** X6.  The subtotal cells are parsed although they are not stored: a row
    that passes the guard, has two nested sub-rows and whose first sub-row
    ends in a cell that [float] rejects raises [ValueError], and so does
    such a row whose second sub-row ends in a cell that [float] rejects
    when the first subtotal parses. *)
Theorem subtotals_must_parse (tournament category pool : string)
    (data : list dict) (row b cell tr0 tr1 tec_last : bs4.node) :
  bs4.find_all "b" row !! 0 = Some b ->
  bs4.find_all "td" row !! 2 = Some cell ->
  bs4.text cell <> "" ->
  bs4.find_all "tr" row !! 0 = Some tr0 ->
  bs4.find_all "tr" row !! 1 = Some tr1 ->
  last (bs4.find_all "td" tr0) = Some tec_last ->
  (py.float (bs4.text tec_last) = Raise ValueError ->
   data_utils.performance_body tournament category pool data row
   = Raise ValueError)
  /\ (forall x ath_last,
        py.float (bs4.text tec_last) = Ok x ->
        last (bs4.find_all "td" tr1) = Some ath_last ->
        py.float (bs4.text ath_last) = Raise ValueError ->
        data_utils.performance_body tournament category pool data row
        = Raise ValueError).
Proof.
  intros Hb Hcell Hkata Htr0 Htr1 Htl.
  unfold data_utils.performance_body.
  rewrite (getitem_lookup _ _ _ Hb). cbn [mbind py.result_bind].
  assert (Hname : exists name,
             py.getitem (py.rsplit1 " (" (bs4.text b)) 0 = Ok name)
    by (unfold py.rsplit1; destruct (py.rfind _ _); eexists; reflexivity).
  destruct Hname as [name ->]. cbn [mbind py.result_bind].
  assert (Hseg : exists segment,
             py.getitem_last (py.rsplit1 "," (bs4.text b)) = Ok segment)
    by (unfold py.rsplit1; destruct (py.rfind _ _); eexists; reflexivity).
  destruct Hseg as [segment ->]. cbn [mbind py.result_bind].
  rewrite (getitem_lookup _ _ _ Hcell). cbn [mbind py.result_bind].
  rewrite (proj2 (guard_true _ _) (conj Hkata (ex_intro _ _ Htr0))).
  unfold py.range. cbn [seq Nat.sub py.comprehension].
  rewrite (getitem_lookup _ _ _ Htr0), (getitem_lookup _ _ _ Htr1).
  cbn [py.unpack2 mbind py.result_bind].
  rewrite (proj2 (getitem_last_Ok _ _) Htl). cbn [mbind py.result_bind].
  split.
  - intros ->. reflexivity.
  - intros x ath_last -> Hal Hath. cbn [mbind py.result_bind].
    rewrite (proj2 (getitem_last_Ok _ _) Hal). cbn [mbind py.result_bind].
    rewrite Hath. reflexivity.
Qed.

Lemma subtotals_must_parse_witness :
  data_utils.performance_body "T" "C" "1" [] more_samples.comma_subtotal_row
  = Raise ValueError.
Proof.
  refine (proj1 (subtotals_must_parse "T" "C" "1" []
                   more_samples.comma_subtotal_row _ _ _ _ _
                   eq_refl eq_refl _ eq_refl eq_refl eq_refl) eq_refl).
  discriminate.
Defined.

(** * The pool label *)

Lemma split_absent sep s :
  py.contains (String sep "") s = false -> py.split sep s = [s].
Proof.
  induction s as [|c s IH]; [reflexivity|].
  rewrite contains_cons. intros [Hc Hs]%orb_false_iff. simpl in *.
  rewrite andb_true_r in Hc.
  rewrite bool_decide_eq_false_2
    by (intros ->; apply bool_decide_eq_false in Hc; contradiction).
  rewrite (IH Hs). reflexivity.
Qed.

Lemma split_app sep a b :
  py.contains (String sep "") a = false ->
  py.split sep (a +:+ String sep b) = a :: py.split sep b.
Proof.
  induction a as [|c a IH].
  - intros _. rewrite app_empty_l. simpl.
    rewrite bool_decide_eq_true_2 by reflexivity. reflexivity.
  - rewrite contains_cons. intros [Hc Ha]%orb_false_iff. simpl in Hc.
    rewrite andb_true_r in Hc. rewrite app_String. simpl.
    rewrite bool_decide_eq_false_2
      by (intros ->; apply bool_decide_eq_false in Hc; contradiction).
    rewrite (IH Ha). reflexivity.
Qed.

(** X7.  The pool label of a table is the part of the text of its first
    row between the first and the second colon (up to the end when there
    is one colon only); a table whose first row holds no colon raises
    [IndexError], and so does a table without any row. *)
Theorem pool_label (tournament category : string) (data : list dict)
    (table : bs4.node) :
  (bs4.find_all "tr" table = [] ->
   data_utils.table_body tournament category data table = Raise IndexError)
  /\ forall first_row,
      bs4.find_all "tr" table !! 0 = Some first_row ->
      (py.contains ":" (bs4.text first_row) = false ->
       data_utils.table_body tournament category data table
       = Raise IndexError)
      /\ forall before label rest,
          py.contains ":" before = false ->
          py.contains ":" label = false ->
          bs4.text first_row = before +:+ ":" +:+ label
          \/ bs4.text first_row = before +:+ ":" +:+ label +:+ ":" +:+ rest ->
          data_utils.table_body tournament category data table
          = py.for_each
              (data_utils.performance_body tournament category label)
              (bs4.find_all_class "tr" ["dctabrowwhite"; "dctabrowgreen"]
                 table)
              data.
Proof.
  split.
  - intros Hrows. unfold data_utils.table_body. rewrite Hrows. reflexivity.
  - intros first_row Hfirst. split.
    + intros Hcolon. unfold data_utils.table_body.
      rewrite (getitem_lookup _ _ _ Hfirst). cbn [mbind py.result_bind].
      rewrite (split_absent _ _ Hcolon). reflexivity.
    + intros before label rest Hbefore Hlabel Htext.
      apply (table_body_rows _ _ _ _ first_row); [exact Hfirst|].
      destruct Htext as [-> | ->].
      * rewrite app_String, app_empty_l, split_app by exact Hbefore.
        rewrite (split_absent _ _ Hlabel). reflexivity.
      * rewrite app_String, app_empty_l, split_app by exact Hbefore.
        rewrite app_String, app_empty_l, split_app by exact Hlabel.
        reflexivity.
Qed.

Lemma pool_label_witness :
  data_utils.table_body "T" "C" []
    (sample.pool_table "Pool: 1 / 4" [sample.full_row])
  = py.for_each (data_utils.performance_body "T" "C" " 1 / 4")
      (bs4.find_all_class "tr" ["dctabrowwhite"; "dctabrowgreen"]
         (sample.pool_table "Pool: 1 / 4" [sample.full_row]))
      [].
Proof.
  apply (proj2 (proj2 (pool_label "T" "C" []
                         (sample.pool_table "Pool: 1 / 4" [sample.full_row]))
                  _ eq_refl)
           "Pool" " 1 / 4" "" eq_refl eq_refl (or_introl eq_refl)).
Defined.

(** * Links without title or reference *)

Local Abbreviation rounds_body :=
  (fun (urls : list string) (link : bs4.node) =>
     keep ← (title ← bs4.getitem link "title";
             if py.contains "Male Kata" title then Ok true
             else title' ← bs4.getitem link "title";
                  Ok (py.contains "Female Kata" title'));
     if keep : bool then
       href ← bs4.getitem link "href";
       Ok (urls ++ [data_utils.base_path +:+ href])
     else Ok urls).

(** The loop of [get_rounds_urls] raises nothing but [KeyError], and it
    returns only when every link has a title and every kept link a
    reference. *)
Lemma rounds_loop_outcome (links : list bs4.node) :
  forall urls,
    match py.for_each rounds_body links urls with
    | Ok _ =>
        Forall (fun link => is_Some (spec.attribute "title" link)) links
        /\ Forall (fun link => is_Some (spec.attribute "href" link))
             (List.filter
                (fun link =>
                   from_option spec.kata_title false
                     (spec.attribute "title" link))
                links)
    | Raise e => e = KeyError
    end.
Proof.
  induction links as [|link links IH]; intros urls.
  - simpl. split; constructor.
  - cbn [py.for_each List.filter]. rewrite !getitem_attribute.
    destruct (spec.attribute "title" link) as [title|] eqn:Htitle;
      [|reflexivity].
    cbn [from_option mbind py.result_bind]. unfold spec.kata_title.
    destruct (py.contains "Male Kata" title) eqn:Hmale;
      [|destruct (py.contains "Female Kata" title) eqn:Hfemale];
      cbn [mbind py.result_bind orb].
    1,2: destruct (spec.attribute "href" link) as [href|] eqn:Hhref;
         [|reflexivity]; cbn [mbind py.result_bind];
         specialize (IH (urls ++ [data_utils.base_path +:+ href]));
         destruct (py.for_each _ links _); [|exact IH];
         destruct IH as [Htitles Hhrefs];
         split; constructor; try assumption; eexists; eassumption.
    specialize (IH urls). destruct (py.for_each _ links _); [|exact IH].
    destruct IH as [Htitles Hhrefs].
    split; [constructor; [eexists; eassumption|assumption]|assumption].
Qed.

(** X8.  Once the index page is fetched and parsed, the Round URL
    Collector returns the empty list when the page has at most three
    category links, whatever they are; it raises exactly when one of the
    links before the last three has no title or one of the kept links has
    no reference, and what it raises is [KeyError]. *)
Theorem get_rounds_urls_failures `{W : World} (draws_url content : string)
    (soup : bs4.node) :
  requests_get draws_url = Ok content ->
  BeautifulSoup content = Ok soup ->
  (length (bs4.find_all_class "a" ["datalink2"] soup) <= 3 ->
   data_utils.get_rounds_urls draws_url = Ok [])
  /\ (data_utils.get_rounds_urls draws_url = Raise KeyError
      <-> ~ (Forall (fun link => is_Some (spec.attribute "title" link))
               (spec.candidate_links soup)
             /\ Forall (fun link => is_Some (spec.attribute "href" link))
                  (spec.kept_links soup)))
  /\ (forall e, data_utils.get_rounds_urls draws_url = Raise e -> e = KeyError).
Proof.
  intros Hget Hparse. unfold data_utils.get_rounds_urls. rewrite Hget.
  cbn [mbind py.result_bind]. rewrite Hparse. cbn [mbind py.result_bind].
  change (py.slice_to_neg 3 (bs4.find_all_class "a" ["datalink2"] soup))
    with (spec.candidate_links soup).
  pose proof (rounds_loop_outcome (spec.candidate_links soup) []) as Hloop.
  split; [|split].
  - intros Hfew. unfold spec.candidate_links.
    replace (length _ - 3) with 0 by lia. reflexivity.
  - split.
    + intros Hraise [Htitles Hhrefs].
      rewrite (rounds_loop _ Htitles Hhrefs) in Hraise. discriminate.
    + intros Hnot. destruct (py.for_each _ _ _) as [urls|e].
      * contradiction.
      * subst e. reflexivity.
  - intros e He. rewrite He in Hloop. exact Hloop.
Qed.

(** * The order of the aggregated records *)

(** X9.  When the Round URL Collector yields at least one link and every
    round is extracted, [get_performances] returns the records of the
    rounds, in the order of the links and, within a round, in the order of
    extraction; the result is the empty table when no round has a record.
    When a round raises after the rounds before it were extracted,
    [get_performances] raises the same exception: what was extracted is
    lost. *)
Theorem get_performances_order `{W : World} (draws_url : string)
    (urls : list string) :
  data_utils.get_rounds_urls draws_url = Ok urls ->
  (forall rounds,
      urls <> [] ->
      Forall2 (fun url round => data_utils.get_round_performances url = Ok round)
        urls rounds ->
      data_utils.get_performances draws_url = Ok (concat rounds)
      /\ (Forall (fun round => round = []) rounds ->
          data_utils.get_performances draws_url = Ok []))
  /\ (forall before url after e,
        urls = before ++ url :: after ->
        Forall (fun u => exists round,
                    data_utils.get_round_performances u = Ok round) before ->
        data_utils.get_round_performances url = Raise e ->
        data_utils.get_performances draws_url = Raise e).
Proof.
  intros Hurls. unfold data_utils.get_performances. rewrite Hurls.
  cbn [mbind py.result_bind]. unfold pd.DataFrame_of. split.
  - intros rounds Hne Hrounds.
    assert (Hcomp : py.comprehension
                      (fun i => data ← data_utils.get_round_performances i;
                                Ok data) urls = Ok rounds).
    { apply comprehension_Ok. eapply Forall2_impl; [exact Hrounds|].
      intros url round ->. reflexivity. }
    rewrite Hcomp. cbn [mbind py.result_bind].
    assert (Hconcat : pd.concat rounds = Ok (concat rounds)).
    { destruct rounds; [|reflexivity].
      apply Forall2_nil_inv_r in Hrounds. contradiction. }
    split; [exact Hconcat|].
    intros Hempty. rewrite Hconcat. f_equal.
    clear -Hempty. induction Hempty as [|round rounds -> _ IH]; [reflexivity|].
    exact IH.
  - intros before url after e -> Hbefore Hurl.
    assert (Hcomp : py.comprehension
                      (fun i => data ← data_utils.get_round_performances i;
                                Ok data) (before ++ url :: after) = Raise e).
    { apply comprehension_Raise. exists before, url, after.
      split; [reflexivity|]. split.
      - eapply Forall_impl; [exact Hbefore|].
        intros u [round ->]. eexists. reflexivity.
      - rewrite Hurl. reflexivity. }
    rewrite Hcomp. reflexivity.
Qed.

(** X10.  When the list file holds at least one line and every event is
    aggregated, [concat_tournaments] returns the tables of the events one
    after the other, in the order of the lines.  When the file cannot be
    read, or when an event raises after the events before it were
    aggregated, [concat_tournaments] raises the same exception. *)
Theorem concat_tournaments_order `{W : World} (filename : string) :
  (forall e, open_read filename = Raise e ->
             data_utils.concat_tournaments filename = Raise e)
  /\ forall text,
      open_read filename = Ok text ->
      (forall frames,
          py.splitlines text <> [] ->
          Forall2 (fun url frame => data_utils.get_performances url = Ok frame)
            (py.splitlines text) frames ->
          data_utils.concat_tournaments filename = Ok (concat frames))
      /\ (forall before url after e,
            py.splitlines text = before ++ url :: after ->
            Forall (fun u => exists frame,
                        data_utils.get_performances u = Ok frame) before ->
            data_utils.get_performances url = Raise e ->
            data_utils.concat_tournaments filename = Raise e).
Proof.
  split.
  - intros e He. unfold data_utils.concat_tournaments. rewrite He. reflexivity.
  - intros text Hread. unfold data_utils.concat_tournaments. rewrite Hread.
    cbn [mbind py.result_bind]. split.
    + intros frames Hne Hframes.
      rewrite (proj2 (comprehension_Ok _ _ _) Hframes).
      cbn [mbind py.result_bind].
      destruct frames; [|reflexivity].
      apply Forall2_nil_inv_r in Hframes. contradiction.
    + intros before url after e Hlines Hbefore Hurl.
      rewrite (proj2 (comprehension_Raise _ _ e)); [reflexivity|].
      exists before, url, after. auto.
Qed.

Lemma get_rounds_urls_failures_witness :
  data_utils.get_rounds_urls (W := more_samples.three_untitled_links) "event"
  = Ok [].
Proof.
  apply (proj1 (get_rounds_urls_failures
                  (W := more_samples.three_untitled_links) "event" "" _
                  eq_refl eq_refl)).
  vm_compute. lia.
Defined.

Lemma get_performances_order_witness :
  data_utils.get_performances (W := more_samples.two_events) "event"
  = Ok (concat [more_samples.event_round]).
Proof.
  apply (proj1 (get_performances_order (W := more_samples.two_events) "event"
                  ["https://www.sportdata.org/wkf/set-online/round.php"]
                  eq_refl)).
  - discriminate.
  - repeat constructor.
Defined.

Lemma concat_tournaments_order_witness :
  data_utils.concat_tournaments (W := more_samples.two_events) "list.txt"
  = Ok (concat [more_samples.event_round; more_samples.event_round]).
Proof.
  apply (proj1 (proj2 (concat_tournaments_order
                         (W := more_samples.two_events) "list.txt")
                  _ eq_refl)).
  - discriminate.
  - repeat constructor.
Defined.

(** * The lines of a list file *)

Lemma rev_app_rev_app l a b :
  String.rev_app (String.rev_app l a) b = String.rev_app a (l +:+ b).
Proof.
  revert a b. induction l as [|c l IH]; intros a b; [reflexivity|].
  simpl. rewrite IH. reflexivity.
Qed.

Lemma rev_rev_app l : String.rev (String.rev_app l "") = l.
Proof.
  unfold String.rev. rewrite rev_app_rev_app. simpl. apply app_empty_r.
Qed.

Lemma splitlines_go_char c cur s :
  py.is_linebreak c = false ->
  py.splitlines_go cur (String c s) = py.splitlines_go (String c cur) s.
Proof.
  destruct c as [[] [] [] [] [] [] [] []]; try discriminate; reflexivity.
Qed.

Lemma splitlines_go_line cur l rest :
  one_line l = true ->
  py.splitlines_go cur (l +:+ String "010" rest)
  = String.rev (String.rev_app l cur) :: py.splitlines_go "" rest.
Proof.
  revert cur. induction l as [|c l IH]; intros cur; [reflexivity|].
  intros [Hc%negb_true_iff Hl]%andb_true_iff.
  rewrite app_String, splitlines_go_char by exact Hc.
  rewrite IH by exact Hl. reflexivity.
Qed.

Lemma splitlines_go_end cur l :
  one_line l = true ->
  py.splitlines_go cur l
  = if bool_decide (String.rev_app l cur = "") then []
    else [String.rev (String.rev_app l cur)].
Proof.
  revert cur. induction l as [|c l IH]; intros cur; [reflexivity|].
  intros [Hc%negb_true_iff Hl]%andb_true_iff.
  rewrite splitlines_go_char by exact Hc. apply IH, Hl.
Qed.

Lemma rev_app_empty l cur : String.rev_app l cur = "" <-> l = "" /\ cur = "".
Proof.
  revert cur. induction l as [|c l IH]; intros cur; simpl; [tauto|].
  rewrite IH. split; [intros [_ [=]]|intros [[=] _]].
Qed.

(** [splitlines] undoes [unlines], and an unfinished last line counts. *)
Lemma splitlines_unlines lines last :
  Forall (fun l => one_line l = true) lines ->
  one_line last = true ->
  py.splitlines (unlines lines +:+ last)
  = lines ++ (if bool_decide (last = "") then [] else [last]).
Proof.
  intros Hlines Hlast. unfold py.splitlines.
  induction Hlines as [|l lines Hl _ IH].
  - rewrite app_empty_l, splitlines_go_end by exact Hlast.
    rewrite rev_rev_app. simpl.
    destruct (bool_decide (last = "")) eqn:Hempty.
    + apply bool_decide_eq_true in Hempty as ->. reflexivity.
    + rewrite bool_decide_eq_false_2; [reflexivity|].
      rewrite rev_app_empty. intros [-> _].
      apply bool_decide_eq_false in Hempty. contradiction.
  - cbn [unlines]. rewrite app_assoc_str, app_String.
    rewrite splitlines_go_line by exact Hl.
    rewrite rev_rev_app, IH. reflexivity.
Qed.

(** X11.  The events that [concat_tournaments] aggregates are the lines of
    the list file: every line ended by a newline, the empty ones included,
    and the unfinished last line when it is not empty.  A final newline
    adds no event; a blank line is aggregated as the empty URL. *)
Theorem list_file_lines `{W : World} (filename : string)
    (lines : list string) (last : string) :
  Forall (fun l => one_line l = true) lines ->
  one_line last = true ->
  open_read filename = Ok (unlines lines +:+ last) ->
  data_utils.concat_tournaments filename
  = frames ← py.comprehension data_utils.get_performances
               (lines ++ (if bool_decide (last = "") then [] else [last]));
    pd.concat frames.
Proof.
  intros Hlines Hlast Hread. unfold data_utils.concat_tournaments.
  rewrite Hread. cbn [mbind py.result_bind].
  rewrite splitlines_unlines by assumption.
  apply bind_ext. intros frames. destruct (pd.concat frames); reflexivity.
Qed.

Lemma list_file_lines_witness :
  data_utils.concat_tournaments (W := more_samples.two_events) "list.txt"
  = frames ← py.comprehension
               (data_utils.get_performances (W := more_samples.two_events))
               (["event-a"]
                ++ (if bool_decide ("event-b" = "") then [] else ["event-b"]));
    pd.concat frames.
Proof.
  apply (list_file_lines (W := more_samples.two_events) "list.txt"
           ["event-a"] "event-b").
  - repeat constructor.
  - reflexivity.
  - reflexivity.
Defined.

(** * Running the script *)

Lemma main_unfold `{W : World} (d : script.disk) :
  script.main d
  = let d1 :=
      if bool_decide ("premier_league.csv" ∈ script.files d) then
        (Ok (), (script.print "File 'premier_league.csv' already exists" d).2)
      else
        match data_utils.concat_tournaments "premier-league.txt" with
        | Ok df => (Ok (), (script.to_csv df "premier_league.csv" d).2)
        | Raise e => (Raise e, d)
        end in
    match d1 with
    | (Raise e, d1) => (Raise e, d1)
    | (Ok _, d1) =>
        if bool_decide ("series_A.csv" ∈ script.files d1) then
          script.print "File 'series_A.csv' already exists" d1
        else
          match data_utils.concat_tournaments "series-A.txt" with
          | Ok df => script.to_csv df "series_A.csv" d1
          | Raise e => (Raise e, d1)
          end
    end.
Proof.
  unfold script.main, script.isfile, script.call, mbind, script.io_bind.
  cbn beta iota zeta.
  destruct (bool_decide ("premier_league.csv" ∈ script.files d)).
  - cbn. destruct (bool_decide ("series_A.csv" ∈ script.files d)); [reflexivity|].
    destruct (data_utils.concat_tournaments "series-A.txt"); reflexivity.
  - cbn. destruct (data_utils.concat_tournaments "premier-league.txt");
      [|reflexivity].
    cbn. destruct (bool_decide _); [reflexivity|].
    destruct (data_utils.concat_tournaments "series-A.txt"); reflexivity.
Qed.

(** X12.  A run of the script that ends without exception has left every
    table that was on the disk as it was, and both output files are on the
    disk afterwards; run again from there, in whatever world, the script
    ends without exception, extracts nothing and writes nothing. *)
Theorem script_rerun `{W : World} (d d' : script.disk) :
  script.main d = (Ok (), d') ->
  (forall path,
      path ∈ script.files d ->
      path ∈ script.files d'
      /\ script.tables d' !! path = script.tables d !! path)
  /\ "premier_league.csv" ∈ script.files d'
  /\ "series_A.csv" ∈ script.files d'
  /\ forall W' : World,
      exists d'',
        script.main (W := W') d' = (Ok (), d'')
        /\ script.files d'' = script.files d'
        /\ script.tables d'' = script.tables d'.
Proof.
  intros Hrun.
  assert (Hpresent : "premier_league.csv" ∈ script.files d'
                     /\ "series_A.csv" ∈ script.files d').
  { rewrite main_unfold in Hrun. cbn zeta in Hrun.
    destruct (decide ("premier_league.csv" ∈ script.files d)) as [Hp|Hp].
    - rewrite (bool_decide_eq_true_2 _ Hp) in Hrun. cbn in Hrun.
      destruct (decide ("series_A.csv" ∈ script.files d)) as [Hs|Hs].
      + rewrite (bool_decide_eq_true_2 _ Hs) in Hrun.
        injection Hrun as <-. cbn. auto.
      + rewrite (bool_decide_eq_false_2 _ Hs) in Hrun.
        destruct (data_utils.concat_tournaments "series-A.txt");
          [|discriminate].
        injection Hrun as <-. cbn. set_solver.
    - rewrite (bool_decide_eq_false_2 _ Hp) in Hrun.
      destruct (data_utils.concat_tournaments "premier-league.txt");
        [|discriminate].
      cbn in Hrun.
      destruct (bool_decide _) eqn:Hs in Hrun.
      + apply bool_decide_eq_true in Hs. injection Hrun as <-. cbn.
        set_solver.
      + destruct (data_utils.concat_tournaments "series-A.txt");
          [|discriminate].
        injection Hrun as <-. cbn. set_solver. }
  split; [|split; [apply Hpresent|split; [apply Hpresent|]]].
  - intros path Hpath. rewrite main_unfold in Hrun. cbn zeta in Hrun.
    destruct (decide ("premier_league.csv" ∈ script.files d)) as [Hp|Hp].
    + rewrite (bool_decide_eq_true_2 _ Hp) in Hrun. cbn in Hrun.
      destruct (decide ("series_A.csv" ∈ script.files d)) as [Hs|Hs].
      * rewrite (bool_decide_eq_true_2 _ Hs) in Hrun.
        injection Hrun as <-. cbn. auto.
      * rewrite (bool_decide_eq_false_2 _ Hs) in Hrun.
        destruct (data_utils.concat_tournaments "series-A.txt");
          [|discriminate].
        injection Hrun as <-. cbn. split; [set_solver|].
        apply lookup_insert_ne. intros <-. contradiction.
    + rewrite (bool_decide_eq_false_2 _ Hp) in Hrun.
      destruct (data_utils.concat_tournaments "premier-league.txt");
        [|discriminate].
      cbn in Hrun.
      destruct (decide ("series_A.csv" ∈ script.files d)) as [Hs|Hs].
      * rewrite bool_decide_eq_true_2 in Hrun by set_solver.
        injection Hrun as <-. cbn. split; [set_solver|].
        apply lookup_insert_ne. intros <-. contradiction.
      * rewrite bool_decide_eq_false_2 in Hrun by set_solver.
        destruct (data_utils.concat_tournaments "series-A.txt");
          [|discriminate].
        injection Hrun as <-. cbn. split; [set_solver|].
        rewrite !lookup_insert_ne by (intros <-; contradiction).
        reflexivity.
  - intros W'. rewrite main_unfold. cbn zeta.
    destruct Hpresent as [Hp Hs].
    rewrite (bool_decide_eq_true_2 _ Hp). cbn.
    rewrite (bool_decide_eq_true_2 _ Hs). cbn.
    eexists. split; [reflexivity|]. split; reflexivity.
Qed.

(** X13.  When the first series is missing and cannot be aggregated, the
    script raises without writing anything and without attempting the
    second series.  When the first series is written and the second cannot
    be aggregated, the script raises and the first output file stays on
    the disk: a later run does not aggregate the first series again,
    whatever its list file holds by then. *)
Theorem script_failure `{W : World} (d : script.disk) (e : exn) :
  "premier_league.csv" ∉ script.files d ->
  (data_utils.concat_tournaments "premier-league.txt" = Raise e ->
   script.main d = (Raise e, d))
  /\ (forall df,
        data_utils.concat_tournaments "premier-league.txt" = Ok df ->
        "series_A.csv" ∉ script.files d ->
        data_utils.concat_tournaments "series-A.txt" = Raise e ->
        let d1 := (script.to_csv df "premier_league.csv" d).2 in
        script.main d = (Raise e, d1)
        /\ forall (W' : World) df',
            data_utils.concat_tournaments (W := W') "series-A.txt" = Ok df' ->
            exists d2,
              script.main (W := W') d1 = (Ok (), d2)
              /\ script.tables d2 !! "premier_league.csv" = Some df
              /\ script.tables d2 !! "series_A.csv" = Some df').
Proof.
  intros Hp. split.
  - intros Hfail. rewrite main_unfold. cbn zeta.
    rewrite (bool_decide_eq_false_2 _ Hp), Hfail. reflexivity.
  - intros df Hdf Hs Hfail d1. split.
    + rewrite main_unfold. cbn zeta.
      rewrite (bool_decide_eq_false_2 _ Hp), Hdf. cbn.
      rewrite bool_decide_eq_false_2 by set_solver.
      rewrite Hfail. reflexivity.
    + intros W' df' Hdf'. rewrite main_unfold. cbn zeta.
      rewrite bool_decide_eq_true_2 by (cbn; set_solver). cbn.
      rewrite bool_decide_eq_false_2 by set_solver.
      rewrite Hdf'. eexists. split; [reflexivity|]. cbn. split.
      * rewrite lookup_insert_ne by discriminate. apply lookup_insert_eq.
      * apply lookup_insert_eq.
Qed.

Lemma script_rerun_witness :
  "premier_league.csv" ∈ script.files sample_runs.after_run
  /\ "series_A.csv" ∈ script.files sample_runs.after_run
  /\ forall W' : World,
      exists d'',
        script.main (W := W') sample_runs.after_run = (Ok (), d'')
        /\ script.files d'' = script.files sample_runs.after_run
        /\ script.tables d'' = script.tables sample_runs.after_run.
Proof.
  apply (proj2 (script_rerun (W := more_samples.two_events)
                  sample_runs.empty_disk sample_runs.after_run
                  ltac:(vm_compute; reflexivity))).
Defined.

Lemma script_failure_witness :
  script.main (W := sample_runs.half_world) sample_runs.empty_disk
  = (Raise OSError,
     (script.to_csv sample_runs.premier_frame "premier_league.csv"
        sample_runs.empty_disk).2).
Proof.
  apply (proj2 (script_failure (W := sample_runs.half_world)
                  sample_runs.empty_disk OSError
                  ltac:(apply not_elem_of_empty))
           sample_runs.premier_frame).
  - vm_compute. reflexivity.
  - apply not_elem_of_empty.
  - reflexivity.
Defined.

(** * What the collector and a row return *)

(** X14.  Whenever the Round URL Collector returns, on a page fetched and
    parsed, it returns the
    references of the kept links, each prefixed with the base path, in
    document order: never more addresses than there are category links
    beyond the last three, and never an address outside the base path. *)
Theorem get_rounds_urls_returns `{W : World} (draws_url content : string)
    (soup : bs4.node) (urls : list string) :
  requests_get draws_url = Ok content ->
  BeautifulSoup content = Ok soup ->
  data_utils.get_rounds_urls draws_url = Ok urls ->
  urls = spec.resolve <$> spec.kept_links soup
  /\ length urls <= length (bs4.find_all_class "a" ["datalink2"] soup) - 3
  /\ Forall (fun url => py.startswith data_utils.base_path url = true) urls.
Proof.
  intros Hget Hparse Hurls. unfold data_utils.get_rounds_urls in Hurls.
  rewrite Hget in Hurls. cbn [mbind py.result_bind] in Hurls.
  rewrite Hparse in Hurls. cbn [mbind py.result_bind] in Hurls.
  change (py.slice_to_neg 3 (bs4.find_all_class "a" ["datalink2"] soup))
    with (spec.candidate_links soup) in Hurls.
  pose proof (rounds_loop_outcome (spec.candidate_links soup) []) as Hloop.
  rewrite Hurls in Hloop. destruct Hloop as [Htitles Hhrefs].
  rewrite (rounds_loop _ Htitles Hhrefs) in Hurls. injection Hurls as <-.
  split; [reflexivity|]. split.
  - cbn [app]. rewrite length_fmap. unfold spec.kept_links.
    etrans; [apply List.filter_length_le|].
    unfold spec.candidate_links. rewrite length_take. lia.
  - cbn [app]. apply Forall_fmap, Forall_forall. intros link _.
    apply startswith_app.
Qed.

Lemma get_rounds_urls_returns_witness :
  let soup :=
    match BeautifulSoup (World := sample.draws_index) "" with
    | Ok soup => soup
    | Raise _ => bs4.NavigableString ""
    end in
  [ "https://www.sportdata.org/wkf/set-online/a.php";
    "https://www.sportdata.org/wkf/set-online/c.php" ]
  = spec.resolve <$> spec.kept_links soup
  /\ 2 <= length (bs4.find_all_class "a" ["datalink2"] soup) - 3
  /\ Forall (fun url => py.startswith data_utils.base_path url = true)
       [ "https://www.sportdata.org/wkf/set-online/a.php";
         "https://www.sportdata.org/wkf/set-online/c.php" ].
Proof.
  apply (get_rounds_urls_returns (W := sample.draws_index) "event" ""
           _ _ eq_refl eq_refl eq_refl).
Defined.

(** X15.  The body of the row loop returns in two ways only: it passes the
    row over, when the row has a bold element and a third cell and the
    kata is empty or there is no nested sub-row; or it appends one record,
    when the row has a bold element, a third cell with a non-empty text,
    two nested sub-rows with a last cell each, when [float] accepts the
    texts of these two cells and of the last cell of the row, and when the
    grade conversion accepts the texts of the cells 1 to 7 of both
    sub-rows.  In every other case it raises. *)
Theorem row_outcomes (tournament category pool : string) (data : list dict)
    (row : bs4.node) :
  (forall data',
      data_utils.performance_body tournament category pool data row = Ok data'
      <-> (skips row /\ data' = data)
          \/ exists rec,
               emits tournament category pool row rec
               /\ data' = data ++ [rec])
  /\ (~ skips row ->
      (forall rec, ~ emits tournament category pool row rec) ->
      exists e,
        data_utils.performance_body tournament category pool data row
        = Raise e).
Proof.
  split; [intros data'; apply performance_body_Ok|].
  intros Hskip Hemit.
  destruct (data_utils.performance_body tournament category pool data row)
    as [data'|e] eqn:Hbody; [|exists e; reflexivity].
  apply performance_body_Ok in Hbody as [[Hs _]|(rec & Hrec & _)].
  - contradiction.
  - destruct (Hemit rec Hrec).
Qed.

Lemma row_outcomes_witness :
  data_utils.performance_body "T" "C" "1" [] sample.no_show_row = Ok [].
Proof.
  apply (proj1 (row_outcomes "T" "C" "1" [] sample.no_show_row) []).
  left. split; [|reflexivity].
  split; [eexists; reflexivity|].
  eexists. split; [reflexivity|]. left. reflexivity.
Defined.
